(** * xml-request-parser: the availability-request validator and price formatter

    A shallow embedding of [xml_requests_parser.py] (class [XMLRequestParser])
    together with the parts of the Python runtime it calls: [int], the
    [xml.etree.ElementTree] queries [find], [findall], [findtext] and [get],
    [datetime.strptime] under the format [%d/%m/%Y], [datetime] comparison and
    subtraction, and [round] on binary64 floats.

    Exceptions are values of [exception]; a function that may raise returns a
    [result].  The clock and the UUID source are explicit inputs. *)

From Stdlib Require Import ZArith Ascii String PrimFloat FloatOps SpecFloat.
From stdpp Require Import base list strings pretty gmap.

Set Warnings "-inexact-float,-register-all".

Local Open Scope Z_scope.

(** ** Exceptions and results *)

Inductive exception : Type :=
  | ValueError (msg : string)
  | TypeError (msg : string)
  | ParseError (msg : string).

Inductive result (A : Type) : Type :=
  | Ok (a : A)
  | Raise (e : exception).
Arguments Ok {A} a.
Arguments Raise {A} e.

#[global] Instance result_ret : MRet result := fun A a => Ok a.
#[global] Instance result_bind : MBind result := fun A B k r =>
  match r with
  | Ok a => k a
  | Raise e => Raise e
  end.

Definition is_ok {A : Type} (r : result A) : Prop :=
  match r with Ok _ => True | Raise _ => False end.

(** ** Python builtins on strings *)

Module Py.

(** [repr] of a string, without the escapes Python adds for quotes and
    control characters. *)
Definition repr (s : string) : string := "'" +:+ s +:+ "'".

(** The white space [int] skips around an ASCII literal: tab, line feed,
    vertical tab, form feed, carriage return and space. *)
Definition is_space (c : ascii) : bool :=
  let n := Z.of_nat (nat_of_ascii c) in
  ((9 <=? n) && (n <=? 13)) || (n =? 32).

Definition is_digit (c : ascii) : bool :=
  let n := Z.of_nat (nat_of_ascii c) in (48 <=? n) && (n <=? 57).

Definition digit_value (c : ascii) : Z := Z.of_nat (nat_of_ascii c) - 48.

Fixpoint lstrip (s : string) : string :=
  match s with
  | String c s' => if is_space c then lstrip s' else s
  | EmptyString => EmptyString
  end.

Fixpoint rstrip (s : string) : string :=
  match s with
  | String c s' =>
      match rstrip s' with
      | EmptyString => if is_space c then EmptyString else String c EmptyString
      | r => String c r
      end
  | EmptyString => EmptyString
  end.

Definition strip (s : string) : string := rstrip (lstrip s).

(** Decimal digits, a single underscore allowed between two digits.
    [after_digit] says that the previous character was a digit. *)
Fixpoint digits (s : string) (acc : Z) (after_digit : bool) : option Z :=
  match s with
  | EmptyString => if after_digit then Some acc else None
  | String c s' =>
      if is_digit c then digits s' (10 * acc + digit_value c) true
      else if (Ascii.eqb c "_"%char) && after_digit then
        match s' with
        | String c' _ => if is_digit c' then digits s' acc false else None
        | EmptyString => None
        end
      else None
  end.

Definition int_literal (s : string) : option Z :=
  match strip s with
  | String "+"%char r => digits r 0 false
  | String "-"%char r => Z.opp <$> digits r 0 false
  | t => digits t 0 false
  end.

(** [int(s)] for a [str] argument, base 10, on ASCII literals: digits of other
    scripts are not read, and there is no bound on the number of digits
    (recent interpreters raise [ValueError] above 4300 of them). *)
Definition int (s : string) : result Z :=
  match int_literal s with
  | Some n => Ok n
  | None => Raise (ValueError ("invalid literal for int() with base 10: " +:+ repr s))
  end.

End Py.

(** ** The document view: [xml.etree.ElementTree]

    An element as [ET.fromstring] builds it: tag, attribute dictionary, text
    before the first child ([None] when there is none) and children in document
    order.  Parsing text into this tree is the XML library's work: the
    functions below start from the root element, and the entry points that
    start from the text take the parser as an input. *)

Inductive element : Type :=
  Element {
    tag : string;
    attrib : gmap string string;
    text : option string;
    children : list element
  }.

Module ET.

(** [Element.iter()]: the element, then its descendants, in document order. *)
Fixpoint iter (e : element) : list element :=
  match e with
  | Element _ _ _ cs => e :: flat_map iter cs
  end.

(** The steps of the paths this program uses.  [".//a/b"] is
    [[Descendant "a"; Child "b"]]: the leading [.] selects the context
    element, [//a] every descendant with tag [a] (the context element
    excluded), [/b] every child with tag [b]. *)
Inductive step : Type :=
  | Descendant (t : string)
  | Child (t : string).

Definition select (s : step) (context : list element) : list element :=
  match s with
  | Descendant t =>
      flat_map (fun e => filter (fun d => tag d = t) (flat_map iter (children e))) context
  | Child t =>
      flat_map (fun e => filter (fun d => tag d = t) (children e)) context
  end.

(** [Element.findall(path)]: all matches, in document order. *)
Definition findall (e : element) (path : list step) : list element :=
  fold_left (fun context s => select s context) path [e].

(** [Element.find(path)]: the first match or [None]. *)
Definition find (e : element) (path : list step) : option element :=
  head (findall e path).

(** [Element.findtext(path)] with the default [None]: the text of the first
    match, the empty string when that element has no text. *)
Definition findtext (e : element) (path : list step) : option string :=
  (fun m => default EmptyString (text m)) <$> find e path.

(** [Element.findtext(path, d)] with a string default [d]. *)
Definition findtext_default (e : element) (path : list step) (d : string) : string :=
  default d (findtext e path).

(** [Element.get(key, d)]. *)
Definition get (e : element) (key d : string) : string :=
  default d (attrib e !! key).

End ET.

(** ** Dates: [datetime.datetime] and [datetime.timedelta]

    A naive [datetime] is kept as its proleptic Gregorian ordinal (1 January of
    year 1 is day 1, as [toordinal]) and the microsecond within that day.  The
    two determine year, month, day, hour, minute, second and microsecond, and
    comparison and subtraction only depend on them. *)

Record datetime : Type := Datetime { ordinal : Z; usec : Z }.

Record timedelta : Type := Timedelta { days : Z; seconds : Z; microseconds : Z }.

Module DT.

Definition usec_per_day : Z := 86400 * 1000000.

Definition is_leap (y : Z) : bool :=
  (y mod 4 =? 0) && (negb (y mod 100 =? 0) || (y mod 400 =? 0)).

Definition days_in_month (y m : Z) : Z :=
  if m =? 2 then (if is_leap y then 29 else 28)
  else if (m =? 4) || (m =? 6) || (m =? 9) || (m =? 11) then 30
  else 31.

Definition days_before_year (y : Z) : Z :=
  let p := y - 1 in p * 365 + p / 4 - p / 100 + p / 400.

(** Days of year [y] before the first of month [m]. *)
Definition days_before_month (y m : Z) : Z :=
  fold_right Z.add 0 (map (days_in_month y) (seqZ 1 (m - 1))).

Definition ymd2ord (y m d : Z) : Z :=
  days_before_year y + days_before_month y m + d.

(** [datetime(y, m, d)], midnight; the constructor checks its arguments. *)
Definition make (y m d : Z) : result datetime :=
  if negb ((1 <=? y) && (y <=? 9999)) then
    Raise (ValueError ("year " +:+ pretty y +:+ " is out of range"))
  else if negb ((1 <=? m) && (m <=? 12)) then
    Raise (ValueError "month must be in 1..12")
  else if negb ((1 <=? d) && (d <=? days_in_month y m)) then
    Raise (ValueError "day is out of range for month")
  else Ok (Datetime (ymd2ord y m d) 0).

(** [a < b] on naive datetimes. *)
Definition lt (a b : datetime) : bool :=
  (ordinal a <? ordinal b) || ((ordinal a =? ordinal b) && (usec a <? usec b)).

(** [a + timedelta(days=n)], for a result within the years 1 to 9999 (beyond
    them Python raises [OverflowError]). *)
Definition add_days (a : datetime) (n : Z) : datetime :=
  Datetime (ordinal a + n) (usec a).

(** [a - b], normalised as the [timedelta] constructor does: whole days
    rounded towards minus infinity, the rest in seconds and microseconds. *)
Definition sub (a b : datetime) : timedelta :=
  let total := (ordinal a - ordinal b) * usec_per_day + (usec a - usec b) in
  let rest := total mod usec_per_day in
  Timedelta (total / usec_per_day) (rest / 1000000) (rest mod 1000000).

(** *** [strptime] under ["%d/%m/%Y"]

    The format compiles to the regular expression
    [(3[0-1]|[1-2]\d|0[1-9]|[1-9]| [1-9])/(1[0-2]|0[1-9]|[1-9])/(\d\d\d\d)],
    matched at the start of the string; text left after the match is an
    error.  Each scanner returns the value read and the rest of the string. *)

Definition scan_day (s : string) : option (Z * string) :=
  match s with
  | String c1 (String c2 r as r1) =>
      if Ascii.eqb c1 "3" && (Ascii.eqb c2 "0" || Ascii.eqb c2 "1") then
        Some (30 + Py.digit_value c2, r)
      else if (Ascii.eqb c1 "1" || Ascii.eqb c1 "2") && Py.is_digit c2 then
        Some (10 * Py.digit_value c1 + Py.digit_value c2, r)
      else if Ascii.eqb c1 "0" && Py.is_digit c2 && negb (Ascii.eqb c2 "0") then
        Some (Py.digit_value c2, r)
      else if Py.is_digit c1 && negb (Ascii.eqb c1 "0") then
        Some (Py.digit_value c1, r1)
      else if Ascii.eqb c1 " " && Py.is_digit c2 && negb (Ascii.eqb c2 "0") then
        Some (Py.digit_value c2, r)
      else None
  | String c1 EmptyString =>
      if Py.is_digit c1 && negb (Ascii.eqb c1 "0") then
        Some (Py.digit_value c1, EmptyString)
      else None
  | EmptyString => None
  end.

Definition scan_month (s : string) : option (Z * string) :=
  match s with
  | String c1 (String c2 r as r1) =>
      if Ascii.eqb c1 "1" && (Ascii.eqb c2 "0" || Ascii.eqb c2 "1" || Ascii.eqb c2 "2") then
        Some (10 + Py.digit_value c2, r)
      else if Ascii.eqb c1 "0" && Py.is_digit c2 && negb (Ascii.eqb c2 "0") then
        Some (Py.digit_value c2, r)
      else if Py.is_digit c1 && negb (Ascii.eqb c1 "0") then
        Some (Py.digit_value c1, r1)
      else None
  | String c1 EmptyString =>
      if Py.is_digit c1 && negb (Ascii.eqb c1 "0") then
        Some (Py.digit_value c1, EmptyString)
      else None
  | EmptyString => None
  end.

Definition scan_year (s : string) : option (Z * string) :=
  match s with
  | String c1 (String c2 (String c3 (String c4 r))) =>
      if Py.is_digit c1 && Py.is_digit c2 && Py.is_digit c3 && Py.is_digit c4 then
        Some (1000 * Py.digit_value c1 + 100 * Py.digit_value c2
              + 10 * Py.digit_value c3 + Py.digit_value c4, r)
      else None
  | _ => None
  end.

Definition scan_slash (s : string) : option string :=
  match s with
  | String c r => if Ascii.eqb c "/" then Some r else None
  | EmptyString => None
  end.

(** The regular expression as a whole: day, month, year and the text left. *)
Definition scan_dmY (s : string) : option (Z * Z * Z * string) :=
  '(d, s1) ← scan_day s;
  s2 ← scan_slash s1;
  '(m, s3) ← scan_month s2;
  s4 ← scan_slash s3;
  '(y, s5) ← scan_year s4;
  Some (d, m, y, s5).

(** [datetime.strptime(s, "%d/%m/%Y")]; [s] is [None] when the caller passes
    Python's [None]. *)
Definition strptime (s : option string) : result datetime :=
  match s with
  | None => Raise (TypeError "strptime() argument 1 must be str, not None")
  | Some s =>
      match scan_dmY s with
      | None =>
          Raise (ValueError ("time data " +:+ Py.repr s
                             +:+ " does not match format '%d/%m/%Y'"))
      | Some (d, m, y, EmptyString) => make y m d
      | Some (_, _, _, rest) =>
          Raise (ValueError ("unconverted data remains: " +:+ rest))
      end
  end.

End DT.

(** ** [round] on floats

    Python floats are binary64, here Rocq's primitive floats.  [round(x, n)]
    with [n >= 0] takes the exact binary value of [x], rounds it to [n] decimal
    places (ties to the even digit) and returns the float closest to that
    decimal; zeros, infinities and NaN are returned as they are. *)

Module PyFloat.

(** The integer closest to [num / den], ties to even ([0 <= num], [0 < den]). *)
Definition div_half_even (num den : Z) : Z :=
  let q := num / den in
  let r := num mod den in
  match 2 * r ?= den with
  | Lt => q
  | Gt => q + 1
  | Eq => if Z.even q then q else q + 1
  end.

Definition round (x : float) (ndigits : N) : float :=
  match Prim2SF x with
  | S754_finite s m e =>
      let scale := 10 ^ Z.of_N ndigits in
      let num := Zpos m * 2 ^ Z.max e 0 * scale in
      let den := 2 ^ Z.max (- e) 0 in
      match div_half_even num den, scale with
      | Zpos n, Zpos d =>
          SF2Prim (SFdiv prec emax (S754_finite s n 0) (S754_finite false d 0))
      | _, _ => SF2Prim (S754_zero s)
      end
  | _ => x
  end.

End PyFloat.

(** ** The configuration: [constants.py]

    The parser does [from constants import *]; the names it uses are the
    fields below.  Their values are inputs of every definition that follows. *)

Record constants : Type := Constants {
  DEFAULT_LANGUAGE : string;
  DEFAULT_CURRENCY : string;
  DEFAULT_NATIONALITY : string;
  VALID_LANGUAGES : list string;
  VALID_CURRENCIES : list string;
  VALID_NATIONALITIES : list string;
  CHILD_AGE_LIMIT : Z;
  ALLOWED_CHILD_COUNT_PER_ROOM : Z;
  ALLOWED_ROOM_GUEST_COUNT : Z;
  EXCHANGE_RATES : gmap (string * string) float;
  NET_PRICE : float;
  MARKUP_PERCENTAGE : float
}.

(** ** The values the parser builds *)

(** The two values of a guest's ["type"] entry. *)
Inductive pax_type : Type := Child | Adult.

#[global] Instance pax_type_eq_dec : EqDecision pax_type.
Proof. solve_decision. Defined.

(** A guest: the dictionary [{"type": ..., "age": ...}]. *)
Record pax : Type := Pax { type : pax_type; age : Z }.

(** A room is the list of its guests. *)
Abbreviation room := (list pax).

(** The text fields read from the document (lines 19 to 24 of [parse_xml]). *)
Record fields : Type := Fields {
  f_language : string;
  f_options_quota : Z;
  f_currency : string;
  f_nationality : string;
  f_start_date_str : option string;
  f_end_date_str : option string
}.

(** The dictionary [response_data] that [parse_xml] returns.  The key
    ["rooms"] is optional: [pd_rooms] is [None] when the key is not set. *)
Record parsed_data : Type := ParsedData {
  pd_language : string;
  pd_options_quota : Z;
  pd_currency : string;
  pd_nationality : string;
  pd_start_date : datetime;
  pd_end_date : datetime;
  pd_ocg : string;
  pd_rooms : option (list room)
}.

(** The ["price"] dictionary of the response. *)
Record price : Type := Price {
  minimumSellingPrice : option float;
  currency : string;
  net : float;
  selling_price : float;
  selling_currency : string;
  markup : float;
  exchange_rate : float
}.

(** The response dictionary; [rooms] is [None] when the key is not set. *)
Record response : Type := Response {
  id : string;
  hotelCodeSupplier : string;
  market : string;
  price_of : price;
  rooms : option (list room)
}.

(** What a request reads from outside the document: [datetime.today()] in
    [_validate_dates], and in [generate_response] the text of
    [datetime.now().strftime('%Y%m%d%H%M%S')] and of [str(uuid.uuid4())]. *)
Record environment : Type := Environment {
  today : datetime;
  now_stamp : string;
  uuid4 : string
}.

(** ** [class XMLRequestParser] *)

Section XMLRequestParser.

Variable C : constants.

(** [self.var_ocg], set by [__init__]. *)
Definition var_ocg : string := "OCG_SECRET".

Definition path_language : list ET.step := [ET.Descendant "source"; ET.Child "languageCode"].
Definition path_options_quota : list ET.step := [ET.Descendant "optionsQuota"].
Definition path_currency : list ET.step := [ET.Descendant "Currency"].
Definition path_nationality : list ET.step := [ET.Descendant "Nationality"].
Definition path_start_date : list ET.step := [ET.Descendant "StartDate"].
Definition path_end_date : list ET.step := [ET.Descendant "EndDate"].
Definition path_parameter : list ET.step :=
  [ET.Descendant "Configuration"; ET.Child "Parameters"; ET.Child "Parameter"].
Definition path_paxes : list ET.step := [ET.Descendant "Paxes"].
Definition path_pax : list ET.step := [ET.Descendant "Pax"].

(** [parse_xml], lines 19 to 24: the values read with their defaults. *)
Definition extract_fields (root : element) : result fields :=
  let language := ET.findtext_default root path_language (DEFAULT_LANGUAGE C) in
  options_quota ← Py.int (ET.findtext_default root path_options_quota "20");
  let currency := ET.findtext_default root path_currency (DEFAULT_CURRENCY C) in
  let nationality := ET.findtext_default root path_nationality (DEFAULT_NATIONALITY C) in
  let start_date_str := ET.findtext root path_start_date in
  let end_date_str := ET.findtext root path_end_date in
  Ok (Fields language options_quota currency nationality start_date_str end_date_str).

Definition required_params : list string := ["password"; "username"; "CompanyID"].

(** The loop of lines 32 to 34 over [required_params]. *)
Fixpoint check_params (params : list string) (parameter_element : element) : result unit :=
  match params with
  | [] => Ok ()
  | param :: rest =>
      if decide (attrib parameter_element !! param = None) then
        Raise (ValueError ("Missing required parameter: " +:+ param))
      else check_params rest parameter_element
  end.

(** [parse_xml], lines 27 to 34: the credential block. *)
Definition validate_required_parameters (root : element) : result unit :=
  match ET.find root path_parameter with
  | None => Raise (ValueError "Missing required <Parameter> element")
  | Some parameter_element => check_params required_params parameter_element
  end.

Definition _validate_room (pax_list : room) (child_count : Z) : result unit :=
  if ALLOWED_CHILD_COUNT_PER_ROOM C <? child_count then
    Raise (ValueError "Exceeded maximum allowed children per room")
  else if ALLOWED_ROOM_GUEST_COUNT C <? Z.of_nat (length pax_list) then
    Raise (ValueError "Exceeded maximum allowed guests per room")
  else if (0 <? child_count) && forallb (fun p => bool_decide (type p = Child)) pax_list then
    Raise (ValueError "A child must have at least one accompanying adult in the same room")
  else Ok ().

(** The inner loop of [_parse_rooms] over the [Pax] elements of one room,
    from the current [pax_list] and [child_count]. *)
Fixpoint parse_paxes (paxes : list element) (pax_list : room) (child_count : Z)
  : result (room * Z) :=
  match paxes with
  | [] => Ok (pax_list, child_count)
  | p :: rest =>
      age ← Py.int (ET.get p "age" "0");
      let pax_type := if age <=? CHILD_AGE_LIMIT C then Child else Adult in
      let pax_list := pax_list ++ [Pax pax_type age] in
      let child_count := if decide (pax_type = Child) then child_count + 1 else child_count in
      parse_paxes rest pax_list child_count
  end.

(** The outer loop of [_parse_rooms] over the [Paxes] elements, from the
    current [rooms]. *)
Fixpoint parse_rooms_loop (groups : list element) (rooms : list room) : result (list room) :=
  match groups with
  | [] => Ok rooms
  | g :: rest =>
      '(pax_list, child_count) ← parse_paxes (ET.findall g path_pax) [] 0;
      _validate_room pax_list child_count;;
      parse_rooms_loop rest (rooms ++ [pax_list])
  end.

Definition _parse_rooms (root : element) : result (list room) :=
  parse_rooms_loop (ET.findall root path_paxes) [].

Definition _validate_basic_fields (language currency nationality : string) (options_quota : Z)
  : result unit :=
  if decide (language ∉ VALID_LANGUAGES C) then
    Raise (ValueError ("Invalid language: " +:+ language))
  else if decide (currency ∉ VALID_CURRENCIES C) then
    Raise (ValueError ("Invalid currency: " +:+ currency))
  else if decide (nationality ∉ VALID_NATIONALITIES C) then
    Raise (ValueError ("Invalid nationality: " +:+ nationality))
  else if 50 <? options_quota then
    Raise (ValueError "optionsQuota cannot be greater than 50")
  else Ok ().

Definition _validate_dates (now : datetime) (start_date_str end_date_str : option string)
  : result (datetime * datetime) :=
  start_date ← DT.strptime start_date_str;
  end_date ← DT.strptime end_date_str;
  if DT.lt start_date (DT.add_days now 2) then
    Raise (ValueError "StartDate must be at least 2 days from today")
  else if days (DT.sub end_date start_date) <? 3 then
    Raise (ValueError "Stay duration must be at least 3 nights")
  else Ok (start_date, end_date).

(** [parse_xml], lines 43 to 54: the dictionary built from the validated
    values; the key ["rooms"] is set when [rooms] is not empty. *)
Definition response_data (f : fields) (rooms : list room) (start_date end_date : datetime)
  : parsed_data :=
  {| pd_language := f_language f;
     pd_options_quota := f_options_quota f;
     pd_currency := f_currency f;
     pd_nationality := f_nationality f;
     pd_start_date := start_date;
     pd_end_date := end_date;
     pd_ocg := var_ocg;
     pd_rooms := match rooms with [] => None | _ => Some rooms end |}.

Definition parse_xml (now : datetime) (root : element) : result parsed_data :=
  f ← extract_fields root;
  validate_required_parameters root;;
  rooms ← _parse_rooms root;
  _validate_basic_fields (f_language f) (f_currency f) (f_nationality f) (f_options_quota f);;
  '(start_date, end_date) ← _validate_dates now (f_start_date_str f) (f_end_date_str f);
  Ok (response_data f rooms start_date end_date).

Definition calculate_selling_price (net_price markup : float) : float :=
  PyFloat.round (net_price + net_price * (markup / 100))%float 2.

Definition get_exchange_rate (from_currency to_currency : string) : float :=
  default 1%float (EXCHANGE_RATES C !! (from_currency, to_currency)).

(** [generate_response] up to the call of [json.dumps]: the response
    dictionary. *)
Definition generate_response (env : environment) (parsed : parsed_data) : response :=
  let unique_id := "A#" +:+ now_stamp env +:+ "-" +:+ String.substring 0 8 (uuid4 env) in
  let exchange_rate := get_exchange_rate "USD" (pd_currency parsed) in
  let selling_price :=
    (calculate_selling_price (NET_PRICE C) (MARKUP_PERCENTAGE C) * exchange_rate)%float in
  {| id := unique_id;
     hotelCodeSupplier := "39971881";
     market := pd_nationality parsed;
     price_of := {| minimumSellingPrice := None;
                    currency := pd_currency parsed;
                    net := NET_PRICE C;
                    selling_price := selling_price;
                    selling_currency := pd_currency parsed;
                    markup := MARKUP_PERCENTAGE C;
                    exchange_rate := exchange_rate |};
     rooms := pd_rooms parsed |}.

(** [process_request]: the value handed to [json.dumps], a list with the one
    response.  The handler [except Exception as e: raise e] raises what it
    caught. *)
Definition process_request (env : environment) (root : element) : result (list response) :=
  match parse_xml (today env) root with
  | Ok parsed => Ok [generate_response env parsed]
  | Raise e => Raise e
  end.

End XMLRequestParser.

(** ** A configuration and documents to run the parser on *)

Module Sample.

(** Modelled from the spec: [constants.py] is not among the sources.  The
    spec names the entries (allowed codes, child-age cutoff, per-room limits,
    rate table, net price, markup) without their values; this is one
    configuration that agrees with the repository's tests (languages en, fr,
    de, es; currencies EUR, USD, GBP; nationality US allowed and XX not;
    ages 3, 4, 5 children and 25 an adult; three children or five guests
    too many). *)
Definition config : constants :=
  {| DEFAULT_LANGUAGE := "en";
     DEFAULT_CURRENCY := "EUR";
     DEFAULT_NATIONALITY := "US";
     VALID_LANGUAGES := ["en"; "fr"; "de"; "es"; "nl"];
     VALID_CURRENCIES := ["EUR"; "USD"; "GBP"];
     VALID_NATIONALITIES := ["US"; "GB"; "CA"];
     CHILD_AGE_LIMIT := 5;
     ALLOWED_CHILD_COUNT_PER_ROOM := 2;
     ALLOWED_ROOM_GUEST_COUNT := 4;
     EXCHANGE_RATES := {[ ("USD", "EUR") := 0.85%float; ("USD", "GBP") := 0.75%float ]};
     NET_PRICE := 132.42%float;
     MARKUP_PERCENTAGE := 3.2%float |}.

Definition leaf (t s : string) : element := Element t ∅ (Some s) [].

Definition pax_elem (a : string) : element := Element "Pax" {[ "age" := a ]} None [].

Definition paxes_elem (ages : list string) : element :=
  Element "Paxes" ∅ None (pax_elem <$> ages).

Definition parameter_elem (attrs : gmap string string) : element :=
  Element "Configuration" ∅ None
    [Element "Parameters" ∅ None [Element "Parameter" attrs None []]].

Definition credentials : gmap string string :=
  {[ "password" := "XXXXXXXXXX"; "username" := "YYYYYYYYY"; "CompanyID" := "123456" ]}.

(** The request of the repository's tests, with the given currency,
    nationality, dates, attributes of [Parameter] and rooms. *)
Definition request_in (currency nationality start_date end_date : string)
    (attrs : gmap string string) (groups : list (list string)) : element :=
  Element "AvailRQ" ∅ None
    ([ leaf "timeoutMilliseconds" "25000";
       Element "source" ∅ None [leaf "languageCode" "en"];
       leaf "optionsQuota" "20";
       parameter_elem attrs;
       leaf "SearchType" "Multiple";
       leaf "StartDate" start_date;
       leaf "EndDate" end_date;
       leaf "Currency" currency;
       leaf "Nationality" nationality ]
     ++ (paxes_elem <$> groups)).

Definition request : string → string → gmap string string → list (list string) → element :=
  request_in "USD" "US".

(** 22 February 2025, 12:00:00. *)
Definition noon : datetime := Datetime 739304 (12 * 3600 * 1000000).

(** The element [e] without its children tagged [t]. *)
Definition without (t : string) (e : element) : element :=
  Element (tag e) (attrib e) (text e) (filter (fun c => tag c ≠ t) (children e)).

(** The attributes a client following the lower-case spelling sends. *)
Definition lowercase_credentials : gmap string string :=
  {[ "password" := "XXXXXXXXXX"; "username" := "YYYYYYYYY"; "companyID" := "123456" ]}.

Definition env : environment :=
  {| today := noon;
     now_stamp := "20250222120000";
     uuid4 := "1b4e28ba-2fa1-11d2-883f-0016d3cca427" |}.

End Sample.

(** ** Vocabulary of the properties *)

(** The two errors of [_validate_dates]. *)
Definition lead_time_error : exception :=
  ValueError "StartDate must be at least 2 days from today".
Definition stay_length_error : exception :=
  ValueError "Stay duration must be at least 3 nights".

(** The three errors of [_validate_room]. *)
Definition exceeded_children_error : exception :=
  ValueError "Exceeded maximum allowed children per room".
Definition exceeded_guests_error : exception :=
  ValueError "Exceeded maximum allowed guests per room".
Definition unaccompanied_child_error : exception :=
  ValueError "A child must have at least one accompanying adult in the same room".

(** The errors of the credential block. *)
Definition missing_parameter_element_error : exception :=
  ValueError "Missing required <Parameter> element".
Definition missing_parameter_error (param : string) : exception :=
  ValueError ("Missing required parameter: " +:+ param).

(** What [strptime] raises when it is handed [None]. *)
Definition strptime_none_error : exception :=
  TypeError "strptime() argument 1 must be str, not None".

(** The number of children among the guests of a room. *)
Definition count_children (r : room) : Z :=
  Z.of_nat (length (filter (fun p => type p = Child) r)).

(** How a built guest relates to the [Pax] element it was read from. *)
Definition guest_of (C : constants) (e : element) (p : pax) : Prop :=
  Py.int (ET.get e "age" "0") = Ok (age p)
  ∧ type p = (if decide (age p ≤ CHILD_AGE_LIMIT C) then Child else Adult).

(** How the built rooms relate to the [Paxes] elements of a document: one room
    per element, one guest per [Pax] below it, in document order. *)
Definition rooms_of (C : constants) (groups : list element) (rs : list room) : Prop :=
  Forall2 (fun g r => Forall2 (guest_of C) (ET.findall g path_pax) r) groups rs.

(** The credential rule read with the attribute names [names]: an element
    that carries all of them passes the check. *)
Definition credentials_accepted (names : list string) : Prop :=
  ∀ (root p : element),
    ET.find root path_parameter = Some p →
    (∀ k, k ∈ names → is_Some (attrib p !! k)) →
    validate_required_parameters root = Ok ().

(** Every guest of every room that was built has a non-negative age. *)
Definition ages_non_negative : Prop :=
  ∀ (C : constants) (root : element) (rs : list room),
    _parse_rooms C root = Ok rs →
    Forall (Forall (fun p => 0 ≤ age p)) rs.

(** The three occupancy rules of a room: at most
    [ALLOWED_CHILD_COUNT_PER_ROOM] children, at most
    [ALLOWED_ROOM_GUEST_COUNT] guests, and an adult whenever there is a
    child. *)
Definition room_ok (C : constants) (r : room) : Prop :=
  count_children r ≤ ALLOWED_CHILD_COUNT_PER_ROOM C
  ∧ Z.of_nat (length r) ≤ ALLOWED_ROOM_GUEST_COUNT C
  ∧ ((∃ p, p ∈ r ∧ type p = Child) → ∃ p, p ∈ r ∧ type p = Adult).

(** The element [e] with [c] added as its last child. *)
Definition with_child (c e : element) : element :=
  Element (tag e) (attrib e) (text e) (children e ++ [c]).

(** An occupancy group that holds a guest of 30 and, nested in it, a second
    group with guests of 5 and 31. *)
Definition nested_group : element :=
  Element "Paxes" ∅ None [Sample.pax_elem "30"; Sample.paxes_elem ["5"; "31"]].

(** The sample request with [nested_group] as its only top-level group. *)
Definition nested_request : element :=
  with_child nested_group
    (Sample.request "25/02/2025" "28/02/2025" Sample.credentials []).

(** ** From the text of a request

    [parse_xml] starts with [root = ET.fromstring(xml_data)] (line 16).  The
    XML parser is the library's and is an input here: [inl root] is the root
    element of a well-formed text, [inr msg] stands for the [ParseError] with
    message [msg] that a malformed text raises. *)

Section FromText.

Variable fromstring : string → element + string.

Definition parse_text (xml_data : string) : result element :=
  match fromstring xml_data with
  | inl root => Ok root
  | inr msg => Raise (ParseError msg)
  end.

(** [parse_xml] from its first line on. *)
Definition parse_xml_text (C : constants) (now : datetime) (xml_data : string)
  : result parsed_data :=
  root ← parse_text xml_data;
  parse_xml C now root.

(** [process_request] on the text it is given. *)
Definition process_request_text (C : constants) (env : environment) (xml_data : string)
  : result (list response) :=
  match parse_xml_text C (today env) xml_data with
  | Ok parsed => Ok [generate_response C env parsed]
  | Raise e => Raise e
  end.

End FromText.

(** The ordinal of 31 December 9999, the last day a [datetime] can hold. *)
Definition max_ordinal : Z := 3652059.

(** A text that is not well-formed, and the message the parser gives for it. *)
Definition malformed_text : string := "<AvailRQ>".
Definition malformed_message : string := "no element found: line 1, column 9".

(** The text of the sample request with the nationality XX. *)
Definition sample_text : string :=
  "<AvailRQ><timeoutMilliseconds>25000</timeoutMilliseconds>"
  +:+ "<source><languageCode>en</languageCode></source>"
  +:+ "<optionsQuota>20</optionsQuota>"
  +:+ "<Configuration><Parameters><Parameter password='XXXXXXXXXX'"
  +:+ " username='YYYYYYYYY' CompanyID='123456'/></Parameters></Configuration>"
  +:+ "<SearchType>Multiple</SearchType>"
  +:+ "<StartDate>25/02/2025</StartDate><EndDate>28/02/2025</EndDate>"
  +:+ "<Currency>USD</Currency><Nationality>XX</Nationality>"
  +:+ "<Paxes><Pax age='30'/><Pax age='5'/></Paxes></AvailRQ>".

(** [ET.fromstring] on the two texts above: the tree of [sample_text], and
    the [ParseError] of [malformed_text].  It is used at these two texts
    only. *)
Definition sample_fromstring (xml_data : string) : element + string :=
  if decide (xml_data = sample_text) then
    inl (Sample.request_in "USD" "XX" "25/02/2025" "28/02/2025" Sample.credentials
           [["30"; "5"]])
  else inr malformed_message.

(** The sample request with the text [q] in its [optionsQuota] element. *)
Definition request_with_quota (q : string) : element :=
  with_child (Sample.leaf "optionsQuota" q)
    (Sample.without "optionsQuota"
       (Sample.request "25/02/2025" "28/02/2025" Sample.credentials [["30"; "5"]])).

(** The value of a result, [None] for an exception. *)
Definition result_to_option {A : Type} (r : result A) : option A :=
  match r with Ok a => Some a | Raise _ => None end.

(** * Properties *)

(** ** The result monad *)

Lemma bind_Ok {A B : Type} (r : result A) (k : A → result B) (b : B) :
  r ≫= k = Ok b ↔ ∃ a, r = Ok a ∧ k a = Ok b.
Proof.
  destruct r as [a|e]; simpl; split.
  - intros H. exists a. by split.
  - intros (a' & Ha & Hk). by inversion Ha; subst.
  - discriminate.
  - intros (a' & Ha & _). discriminate.
Qed.

Lemma bind_Raise {A B : Type} (r : result A) (k : A → result B) (e : exception) :
  r ≫= k = Raise e ↔ r = Raise e ∨ ∃ a, r = Ok a ∧ k a = Raise e.
Proof.
  destruct r as [a|e']; cbn; split.
  - intros H. right. exists a. by split.
  - intros [H | (a' & Ha & Hk)]; [discriminate | by inversion Ha; subst].
  - intros [= ->]. by left.
  - intros [[= ->] | (a' & Ha & _)]; [done | discriminate].
Qed.

(** ** Dates *)

Lemma make_midnight (y m d : Z) (t : datetime) : DT.make y m d = Ok t → usec t = 0.
Proof.
  unfold DT.make. repeat case_match; try discriminate.
  intros [= <-]. reflexivity.
Qed.

(** A date that parses is a calendar date at midnight. *)
Lemma strptime_midnight (s : option string) (t : datetime) :
  DT.strptime s = Ok t → usec t = 0.
Proof.
  unfold DT.strptime. destruct s as [s|]; [|discriminate].
  destruct (DT.scan_dmY s) as [[[[d m] y] rest]|]; [|discriminate].
  destruct rest; [apply make_midnight | discriminate].
Qed.

(** Between two midnights the [days] of the difference is the difference of
    the ordinals. *)
Lemma sub_days_midnight (a b : datetime) :
  usec a = 0 → usec b = 0 → days (DT.sub a b) = ordinal a - ordinal b.
Proof.
  intros Ha Hb. unfold DT.sub. simpl. rewrite Ha, Hb.
  replace (0 - 0) with 0 by lia. rewrite Z.add_0_r.
  apply Z.div_mul. unfold DT.usec_per_day. lia.
Qed.

Lemma lt_spec (a b : datetime) :
  DT.lt a b = true ↔ ordinal a < ordinal b ∨ (ordinal a = ordinal b ∧ usec a < usec b).
Proof. unfold DT.lt. rewrite orb_true_iff, andb_true_iff. lia. Qed.

(** What [_validate_dates] does once both strings have parsed. *)
Lemma validate_dates_parsed (now : datetime) (s e : option string) (sd ed : datetime) :
  DT.strptime s = Ok sd → DT.strptime e = Ok ed →
  _validate_dates now s e =
    if DT.lt sd (DT.add_days now 2) then Raise lead_time_error
    else if ordinal ed - ordinal sd <? 3 then Raise stay_length_error
    else Ok (sd, ed).
Proof.
  intros Hs He. unfold _validate_dates. rewrite Hs, He.
  unfold mbind, result_bind.
  rewrite sub_days_midnight by eauto using strptime_midnight. reflexivity.
Qed.

(** A start date equal to the current date is rejected by the lead-time
    check, at any time of the day. *)
Lemma start_today_rejected (now : datetime) (s e : option string) (sd ed : datetime) :
  0 ≤ usec now →
  DT.strptime s = Ok sd → DT.strptime e = Ok ed →
  ordinal sd = ordinal now →
  _validate_dates now s e = Raise lead_time_error.
Proof.
  intros Hu Hs He Ho. rewrite (validate_dates_parsed now s e sd ed) by done.
  assert (DT.lt sd (DT.add_days now 2) = true) as ->; [|done].
  apply lt_spec. simpl. lia.
Qed.

(** A start date three or more days after the current date passes the
    lead-time check. *)
Lemma start_three_days_ahead_passes (now : datetime) (s e : option string) (sd ed : datetime) :
  DT.strptime s = Ok sd → DT.strptime e = Ok ed →
  ordinal now + 3 ≤ ordinal sd →
  _validate_dates now s e ≠ Raise lead_time_error.
Proof.
  intros Hs He Ho. rewrite (validate_dates_parsed now s e sd ed) by done.
  assert (DT.lt sd (DT.add_days now 2) = false) as ->.
  { apply not_true_iff_false. rewrite lt_spec. simpl. lia. }
  case_match; discriminate.
Qed.

(** A start date exactly two days after the current date is rejected as soon
    as the clock is past midnight: [datetime.today()] carries the time of
    day into the comparison. *)
Lemma boundary_rejected_iff_past_midnight (now : datetime) (s e : option string)
    (sd ed : datetime) :
  DT.strptime s = Ok sd → DT.strptime e = Ok ed →
  ordinal sd = ordinal now + 2 →
  (_validate_dates now s e = Raise lead_time_error ↔ 0 < usec now).
Proof.
  intros Hs He Ho. rewrite (validate_dates_parsed now s e sd ed) by done.
  pose proof (strptime_midnight _ _ Hs) as Hm.
  destruct (DT.lt sd (DT.add_days now 2)) eqn:Hlt.
  - apply lt_spec in Hlt. simpl in Hlt. split; [lia | done].
  - apply not_true_iff_false in Hlt. rewrite lt_spec in Hlt. simpl in Hlt.
    split; [|lia]. case_match; discriminate.
Qed.

(** C4. Once both dates have parsed and the start date has passed the
    lead-time check, the request is rejected with the stay-length error
    exactly when end minus start is fewer than 3 whole days, and accepted (the
    pair of dates is returned) exactly when it is 3 days or more; when the
    lead-time check fails its error is the one raised, whatever the length of
    the stay.  The difference is the difference of the two calendar days. *)
Theorem stay_length_check (now : datetime) (s e : option string)
    (sd ed : datetime) :
  DT.strptime s = Ok sd → DT.strptime e = Ok ed →
  days (DT.sub ed sd) = ordinal ed - ordinal sd
  ∧ (DT.lt sd (DT.add_days now 2) = true →
       _validate_dates now s e = Raise lead_time_error)
  ∧ (DT.lt sd (DT.add_days now 2) = false →
       (_validate_dates now s e = Raise stay_length_error ↔ days (DT.sub ed sd) < 3)
       ∧ (_validate_dates now s e = Ok (sd, ed) ↔ 3 ≤ days (DT.sub ed sd))).
Proof.
  intros Hs He.
  rewrite (validate_dates_parsed now s e sd ed) by done.
  rewrite sub_days_midnight by eauto using strptime_midnight.
  split; [done|]. split.
  - intros ->. done.
  - intros ->. destruct (Z.ltb_spec (ordinal ed - ordinal sd) 3) as [Hlt|Hge].
    + split; split; try done; lia.
    + split; split; try done; lia.
Qed.

Lemma stay_length_check_witness :
  let s := Some "25/02/2025" in
  let e := Some "28/02/2025" in
  let sd := Datetime 739307 0 in
  let ed := Datetime 739310 0 in
  days (DT.sub ed sd) = ordinal ed - ordinal sd
  ∧ (DT.lt sd (DT.add_days Sample.noon 2) = true →
       _validate_dates Sample.noon s e = Raise lead_time_error)
  ∧ (DT.lt sd (DT.add_days Sample.noon 2) = false →
       (_validate_dates Sample.noon s e = Raise stay_length_error
        ↔ days (DT.sub ed sd) < 3)
       ∧ (_validate_dates Sample.noon s e = Ok (sd, ed)
          ↔ 3 ≤ days (DT.sub ed sd))).
Proof.
  apply (stay_length_check Sample.noon
           (Some "25/02/2025") (Some "28/02/2025")); reflexivity.
Defined.

(** C1. With the clock at 12:00 on 22 February 2025, the start date
    24/02/2025 parses to the current date plus 2 days, at midnight, and
    [_validate_dates] raises the lead-time error: the bound
    [datetime.today() + timedelta(days=2)] is 24 February at 12:00, which the
    start date precedes. *)
Theorem lead_time_two_days_at_noon :
  usec Sample.noon = 12 * 3600 * 1000000
  ∧ DT.strptime (Some "24/02/2025") = Ok (Datetime (ordinal Sample.noon + 2) 0)
  ∧ _validate_dates Sample.noon (Some "24/02/2025") (Some "28/02/2025")
    = Raise lead_time_error
  ∧ parse_xml Sample.config Sample.noon
      (Sample.request "24/02/2025" "28/02/2025" Sample.credentials [["30"; "5"]])
    = Raise lead_time_error.
Proof. repeat split; vm_compute; reflexivity. Qed.

(** C7. A document without a [StartDate] element, valid otherwise, is
    rejected with the [TypeError] that [strptime] raises on [None]; the error
    does not name the field.  The same holds without [EndDate]. *)
Theorem missing_date_type_error :
  let doc := Sample.request "25/02/2025" "28/02/2025" Sample.credentials [["30"; "5"]] in
  ET.findtext (Sample.without "StartDate" doc) path_start_date = None
  ∧ parse_xml Sample.config Sample.noon (Sample.without "StartDate" doc)
    = Raise strptime_none_error
  ∧ ET.findtext (Sample.without "EndDate" doc) path_end_date = None
  ∧ parse_xml Sample.config Sample.noon (Sample.without "EndDate" doc)
    = Raise strptime_none_error.
Proof. repeat split; vm_compute; reflexivity. Qed.

(** An absent date reaches [strptime] as [None], for every configuration and
    clock. *)
Lemma validate_dates_missing_start (now : datetime) (e : option string) :
  _validate_dates now None e = Raise strptime_none_error.
Proof. reflexivity. Qed.

Lemma validate_dates_missing_end (now : datetime) (s : option string)
    (sd : datetime) :
  DT.strptime s = Ok sd → _validate_dates now s None = Raise strptime_none_error.
Proof. intros Hs. unfold _validate_dates. rewrite Hs. reflexivity. Qed.

(** A document that passes every earlier step and has no [StartDate] element
    ends in that [TypeError]. *)
Lemma parse_xml_missing_start_date (C : constants) (now : datetime) (root : element)
    (f : fields) (rs : list room) :
  extract_fields C root = Ok f →
  validate_required_parameters root = Ok () →
  _parse_rooms C root = Ok rs →
  _validate_basic_fields C (f_language f) (f_currency f) (f_nationality f)
    (f_options_quota f) = Ok () →
  ET.find root path_start_date = None →
  parse_xml C now root = Raise strptime_none_error.
Proof.
  intros Hf Hp Hr Hb Hnone. unfold parse_xml.
  rewrite Hf. simpl. rewrite Hp. simpl. rewrite Hr. simpl. rewrite Hb. simpl.
  assert (f_start_date_str f = None) as ->; [|done].
  unfold extract_fields in Hf. apply bind_Ok in Hf as (q & _ & [= <-]). simpl.
  unfold ET.findtext. by rewrite Hnone.
Qed.

(** ** Rooms *)

Lemma count_children_nil : count_children [] = 0.
Proof. reflexivity. Qed.

Lemma count_children_cons (p : pax) (r : room) :
  count_children (p :: r) = (if decide (type p = Child) then 1 else 0) + count_children r.
Proof.
  unfold count_children. destruct (decide (type p = Child)) as [H|H].
  - rewrite filter_cons_True by done. simpl length. lia.
  - rewrite filter_cons_False by done. lia.
Qed.

Lemma count_children_nonneg (r : room) : 0 ≤ count_children r.
Proof. unfold count_children. lia. Qed.

(** A room has no child exactly when its count of children is zero. *)
Lemma count_children_pos (r : room) :
  0 < count_children r ↔ ∃ p, p ∈ r ∧ type p = Child.
Proof.
  induction r as [|q r IH].
  - rewrite count_children_nil. split; [lia|]. intros (p & Hp & _). by apply elem_of_nil in Hp.
  - rewrite count_children_cons. pose proof (count_children_nonneg r).
    destruct (decide (type q = Child)) as [Hq|Hq].
    + split; [|lia]. intros _. exists q. split; [left|done].
    + split.
      * intros Hpos. destruct IH as [IH _]. destruct IH as (p & Hp & Hc); [lia|].
        exists p. split; [by right|done].
      * intros (p & Hp & Hc). apply elem_of_cons in Hp as [->|Hp]; [done|].
        destruct IH as [_ IH]. specialize (IH (ex_intro _ p (conj Hp Hc))). lia.
Qed.

Lemma forallb_all_children (r : room) :
  forallb (fun p => bool_decide (type p = Child)) r = true ↔ ∀ p, p ∈ r → type p = Child.
Proof.
  rewrite forallb_forall. split.
  - intros H p Hp. eapply bool_decide_eq_true_1, H. by apply list_elem_of_In.
  - intros H p Hp. apply bool_decide_eq_true_2, H. by apply list_elem_of_In.
Qed.

Section Rooms.

Variable C : constants.

(** The inner loop appends one guest per [Pax] element and counts the
    children among them. *)
Lemma parse_paxes_spec (es : list element) (pl : room) (cc : Z) (pl' : room) (cc' : Z) :
  parse_paxes C es pl cc = Ok (pl', cc') →
  ∃ new, pl' = pl ++ new ∧ cc' = cc + count_children new ∧ Forall2 (guest_of C) es new.
Proof.
  revert pl cc. induction es as [|e es IH]; intros pl cc; simpl.
  - intros [= <- <-]. exists []. rewrite app_nil_r, count_children_nil.
    split; [done|]. split; [lia|constructor].
  - intros H. apply bind_Ok in H as (a & Ha & H).
    apply IH in H as (new & -> & -> & Hall).
    set (ty := if a <=? CHILD_AGE_LIMIT C then Child else Adult) in *.
    exists (Pax ty a :: new). rewrite <- app_assoc. split; [done|]. split.
    + rewrite count_children_cons. simpl. destruct (decide (ty = Child)); lia.
    + constructor; [|done]. split; [done|]. simpl. subst ty.
      destruct (Z.leb_spec a (CHILD_AGE_LIMIT C));
        [rewrite decide_True by done | rewrite decide_False by lia]; done.
Qed.

(** The count handed to [_validate_room] is the number of children of the
    room that was built. *)
Lemma parse_paxes_count (es : list element) (pl : room) (cc : Z) :
  parse_paxes C es [] 0 = Ok (pl, cc) → cc = count_children pl ∧ Forall2 (guest_of C) es pl.
Proof.
  intros H. apply parse_paxes_spec in H as (new & -> & -> & Hall). simpl. split; [lia|done].
Qed.

(** The outer loop appends one validated room per [Paxes] element. *)
Lemma parse_rooms_loop_spec (gs : list element) (acc rs : list room) :
  parse_rooms_loop C gs acc = Ok rs →
  ∃ new, rs = acc ++ new ∧ rooms_of C gs new
         ∧ Forall (fun r => _validate_room C r (count_children r) = Ok ()) new.
Proof.
  revert acc. induction gs as [|g gs IH]; intros acc; simpl.
  - intros [= <-]. exists []. rewrite app_nil_r. repeat split; constructor.
  - intros H. apply bind_Ok in H as ([pl cc] & Hp & H).
    apply bind_Ok in H as ([] & Hv & H).
    apply IH in H as (new & -> & Hrooms & Hvalid).
    apply parse_paxes_count in Hp as [-> Hguests].
    exists (pl :: new). rewrite <- app_assoc. repeat split; try done.
    + by constructor.
    + by constructor.
Qed.

Lemma parse_rooms_loop_app (g1 g2 : list element) (acc : list room) :
  parse_rooms_loop C (g1 ++ g2) acc = parse_rooms_loop C g1 acc ≫= parse_rooms_loop C g2.
Proof.
  revert acc. induction g1 as [|g g1 IH]; intros acc; simpl; [done|].
  destruct (parse_paxes C (ET.findall g path_pax) [] 0) as [[pl cc]|e]; [|done]. simpl.
  destruct (_validate_room C pl cc) as [[]|e]; [|done]. simpl. apply IH.
Qed.

(** [_validate_room], check by check. *)
Lemma validate_room_cases (pl : room) (cc : Z) :
  _validate_room C pl cc =
    if decide (ALLOWED_CHILD_COUNT_PER_ROOM C < cc) then Raise exceeded_children_error
    else if decide (ALLOWED_ROOM_GUEST_COUNT C < Z.of_nat (length pl)) then
      Raise exceeded_guests_error
    else if decide (0 < cc ∧ Forall (fun p => type p = Child) pl) then
      Raise unaccompanied_child_error
    else Ok ().
Proof.
  unfold _validate_room.
  destruct (Z.ltb_spec (ALLOWED_CHILD_COUNT_PER_ROOM C) cc);
    destruct (decide (ALLOWED_CHILD_COUNT_PER_ROOM C < cc)); try lia; [done|].
  destruct (Z.ltb_spec (ALLOWED_ROOM_GUEST_COUNT C) (Z.of_nat (length pl)));
    destruct (decide (ALLOWED_ROOM_GUEST_COUNT C < Z.of_nat (length pl))); try lia; [done|].
  destruct (decide (0 < cc ∧ Forall (fun p => type p = Child) pl)) as [[Hc Hall]|Hn].
  - rewrite Forall_forall, <- forallb_all_children in Hall. rewrite Hall.
    destruct (Z.ltb_spec 0 cc); [done|lia].
  - destruct (Z.ltb_spec 0 cc); [|done]. simpl.
    destruct (forallb _ pl) eqn:Hall; [|done].
    rewrite forallb_all_children, <- Forall_forall in Hall. by destruct Hn.
Qed.

End Rooms.

(** C2. Each room is checked as it is built, first the number of children,
    then the number of guests, then the unaccompanied child, with the count
    of children of the room just built; the first check that fails raises its
    message; and the first room that fails makes [_parse_rooms] raise that
    error, so that no list of rooms is returned. *)
Theorem occupancy_validation (C : constants) :
  (∀ pl : room,
     ALLOWED_CHILD_COUNT_PER_ROOM C < count_children pl →
     _validate_room C pl (count_children pl)
     = Raise (ValueError "Exceeded maximum allowed children per room"))
  ∧ (∀ pl : room,
       count_children pl ≤ ALLOWED_CHILD_COUNT_PER_ROOM C →
       ALLOWED_ROOM_GUEST_COUNT C < Z.of_nat (length pl) →
       _validate_room C pl (count_children pl)
       = Raise (ValueError "Exceeded maximum allowed guests per room"))
  ∧ (∀ pl : room,
       count_children pl ≤ ALLOWED_CHILD_COUNT_PER_ROOM C →
       Z.of_nat (length pl) ≤ ALLOWED_ROOM_GUEST_COUNT C →
       (∃ p, p ∈ pl ∧ type p = Child) → (∀ p, p ∈ pl → type p ≠ Adult) →
       _validate_room C pl (count_children pl) = Raise unaccompanied_child_error)
  ∧ (∀ pl : room,
       count_children pl ≤ ALLOWED_CHILD_COUNT_PER_ROOM C →
       Z.of_nat (length pl) ≤ ALLOWED_ROOM_GUEST_COUNT C →
       (∀ p, p ∈ pl → type p ≠ Child) ∨ (∃ p, p ∈ pl ∧ type p = Adult) →
       _validate_room C pl (count_children pl) = Ok ())
  ∧ (∀ (es : list element) (pl : room) (cc : Z),
       parse_paxes C es [] 0 = Ok (pl, cc) → cc = count_children pl)
  ∧ (∀ (root : element) (before after : list element) (g : element)
       (pl : room) (cc : Z) (e : exception),
       ET.findall root path_paxes = before ++ g :: after →
       is_ok (parse_rooms_loop C before []) →
       parse_paxes C (ET.findall g path_pax) [] 0 = Ok (pl, cc) →
       _validate_room C pl cc = Raise e →
       _parse_rooms C root = Raise e).
Proof.
  repeat apply conj.
  - intros pl H. rewrite validate_room_cases. by rewrite decide_True.
  - intros pl H1 H2. rewrite validate_room_cases.
    rewrite decide_False by lia. by rewrite decide_True.
  - intros pl H1 H2 Hchild Hadult. rewrite validate_room_cases.
    rewrite decide_False by lia. rewrite decide_False by lia.
    case_decide as Hn; [done|]. destruct Hn. split.
    + by apply count_children_pos.
    + apply Forall_forall. intros p Hp. specialize (Hadult p Hp).
      by destruct (type p).
  - intros pl H1 H2 Hor. rewrite validate_room_cases.
    rewrite decide_False by lia. rewrite decide_False by lia.
    case_decide as Hn; [|done]. destruct Hn as [Hpos Hall].
    apply count_children_pos in Hpos as (q & Hq & Hc).
    rewrite Forall_forall in Hall.
    destruct Hor as [Hno | (p & Hp & Ha)].
    + by destruct (Hno q Hq).
    + specialize (Hall p Hp). congruence.
  - intros es pl cc H. by apply parse_paxes_count in H as [-> _].
  - intros root before after g pl cc e Hfind Hok Hp Hv.
    unfold _parse_rooms. rewrite Hfind, parse_rooms_loop_app.
    destruct (parse_rooms_loop C before []) as [rs|e']; [|done].
    simpl. rewrite Hp. simpl. by rewrite Hv.
Qed.

(** The rooms of the repository's tests, under [Sample.config]. *)
Example room_unaccompanied_child :
  _parse_rooms Sample.config (Sample.request "25/02/2025" "28/02/2025" Sample.credentials [["4"]])
  = Raise unaccompanied_child_error.
Proof. vm_compute. reflexivity. Qed.

Example room_too_many_children :
  _parse_rooms Sample.config
    (Sample.request "25/02/2025" "28/02/2025" Sample.credentials [["3"; "4"; "5"; "25"]])
  = Raise (ValueError "Exceeded maximum allowed children per room").
Proof. vm_compute. reflexivity. Qed.

Example room_too_many_guests :
  _parse_rooms Sample.config
    (Sample.request "25/02/2025" "28/02/2025" Sample.credentials
       [["30"; "25"; "20"; "15"; "10"]])
  = Raise (ValueError "Exceeded maximum allowed guests per room").
Proof. vm_compute. reflexivity. Qed.

Example second_room_invalid_no_partial_list :
  _parse_rooms Sample.config
    (Sample.request "25/02/2025" "28/02/2025" Sample.credentials [["30"; "5"]; ["4"]; ["30"]])
  = Raise unaccompanied_child_error.
Proof. vm_compute. reflexivity. Qed.

(** C9, as amended. Every room that was built has one guest per [Pax]
    element, in document order; the age of a guest is the integer that [int]
    reads from the [age] attribute, [0] when the attribute is absent, whatever
    its sign; and the guest is a Child when that age is at most
    [CHILD_AGE_LIMIT], an Adult otherwise. *)
Theorem guests_as_parsed (C : constants) (root : element) (rs : list room) :
  _parse_rooms C root = Ok rs →
  rooms_of C (ET.findall root path_paxes) rs
  ∧ (∀ e : element, attrib e !! "age" = None → Py.int (ET.get e "age" "0") = Ok 0).
Proof.
  intros H. split.
  - apply parse_rooms_loop_spec in H as (new & -> & Hrooms & _). done.
  - intros e He. unfold ET.get. rewrite He. reflexivity.
Qed.

Lemma guests_as_parsed_witness :
  let root := Sample.request "25/02/2025" "28/02/2025" Sample.credentials [["-1"; "30"]] in
  let rs := [[Pax Child (-1); Pax Adult 30]] in
  rooms_of Sample.config (ET.findall root path_paxes) rs
  ∧ (∀ e : element, attrib e !! "age" = None → Py.int (ET.get e "age" "0") = Ok 0).
Proof.
  apply (guests_as_parsed Sample.config
           (Sample.request "25/02/2025" "28/02/2025" Sample.credentials [["-1"; "30"]])).
  vm_compute. reflexivity.
Defined.

(** C9, as stated, fails: the room with the ages -1 and 30 is built, and its
    first guest has the age -1. *)
Lemma ages_can_be_negative : ¬ ages_non_negative.
Proof.
  intros H.
  specialize (H Sample.config
    (Sample.request "25/02/2025" "28/02/2025" Sample.credentials [["-1"; "30"]])
    [[Pax Child (-1); Pax Adult 30]]).
  assert (Forall (Forall (fun p => 0 ≤ age p)) [[Pax Child (-1); Pax Adult 30]]) as Hall.
  { apply H. vm_compute. reflexivity. }
  apply Forall_cons in Hall as [Hroom _].
  apply Forall_cons in Hroom as [Hage _]. simpl in Hage. lia.
Qed.

(** ** The pipeline *)

Section Pipeline.

Variable C : constants.

(** [parse_xml] succeeds exactly when its five steps do, in their order. *)
Lemma parse_xml_Ok (now : datetime) (root : element) (pd : parsed_data) :
  parse_xml C now root = Ok pd ↔
  ∃ f rs sd ed,
    extract_fields C root = Ok f
    ∧ validate_required_parameters root = Ok ()
    ∧ _parse_rooms C root = Ok rs
    ∧ _validate_basic_fields C (f_language f) (f_currency f) (f_nationality f)
        (f_options_quota f) = Ok ()
    ∧ _validate_dates now (f_start_date_str f) (f_end_date_str f) = Ok (sd, ed)
    ∧ pd = response_data f rs sd ed.
Proof.
  unfold parse_xml. split.
  - intros H.
    apply bind_Ok in H as (f & Hf & H).
    apply bind_Ok in H as ([] & Hp & H).
    apply bind_Ok in H as (rs & Hr & H).
    apply bind_Ok in H as ([] & Hb & H).
    apply bind_Ok in H as ([sd ed] & Hd & H).
    injection H as <-. by exists f, rs, sd, ed.
  - intros (f & rs & sd & ed & Hf & Hp & Hr & Hb & Hd & ->).
    rewrite Hf. simpl. rewrite Hp. simpl. rewrite Hr. simpl.
    rewrite Hb. simpl. rewrite Hd. reflexivity.
Qed.

Lemma process_request_Ok (env : environment) (root : element) (out : list response) :
  process_request C env root = Ok out ↔
  ∃ pd, parse_xml C (today env) root = Ok pd ∧ out = [generate_response C env pd].
Proof.
  unfold process_request. destruct (parse_xml C (today env) root) as [pd|e]; split.
  - intros [= <-]. by exists pd.
  - intros (pd' & [= <-] & ->). done.
  - discriminate.
  - intros (pd' & Hpd & _). discriminate.
Qed.

(** The fields read from the document. *)
Lemma extract_fields_Ok (root : element) (f : fields) :
  extract_fields C root = Ok f ↔
  ∃ q, Py.int (ET.findtext_default root path_options_quota "20") = Ok q
       ∧ f = Fields (ET.findtext_default root path_language (DEFAULT_LANGUAGE C)) q
               (ET.findtext_default root path_currency (DEFAULT_CURRENCY C))
               (ET.findtext_default root path_nationality (DEFAULT_NATIONALITY C))
               (ET.findtext root path_start_date) (ET.findtext root path_end_date).
Proof.
  unfold extract_fields. split.
  - intros H. apply bind_Ok in H as (q & Hq & [= <-]). by exists q.
  - intros (q & Hq & ->). rewrite Hq. reflexivity.
Qed.

(** [_validate_basic_fields], check by check. *)
Lemma validate_basic_fields_cases (language currency nationality : string) (q : Z) :
  _validate_basic_fields C language currency nationality q =
    if decide (language ∉ VALID_LANGUAGES C) then
      Raise (ValueError ("Invalid language: " +:+ language))
    else if decide (currency ∉ VALID_CURRENCIES C) then
      Raise (ValueError ("Invalid currency: " +:+ currency))
    else if decide (nationality ∉ VALID_NATIONALITIES C) then
      Raise (ValueError ("Invalid nationality: " +:+ nationality))
    else if decide (50 < q) then Raise (ValueError "optionsQuota cannot be greater than 50")
    else Ok ().
Proof.
  unfold _validate_basic_fields. repeat case_decide; try done.
  - destruct (Z.ltb_spec 50 q); [done|lia].
  - destruct (Z.ltb_spec 50 q); [lia|done].
Qed.

End Pipeline.

(** C10. With per-room limits that are not negative, an occupancy group
    without guest entries builds the empty room, which passes the three
    checks; the record of a successful [parse_xml] has the key ["rooms"]
    exactly when the list of built rooms is not empty (one room per occupancy
    group), so it has the key, with an empty room in it, when the document has
    an empty group, and has no such key when the document has no group; and
    the response has the key exactly when the record has it, with the same
    rooms. *)
Theorem empty_room_and_rooms_key (C : constants) :
  0 ≤ ALLOWED_CHILD_COUNT_PER_ROOM C → 0 ≤ ALLOWED_ROOM_GUEST_COUNT C →
  (∀ g : element, ET.findall g path_pax = [] →
     parse_paxes C (ET.findall g path_pax) [] 0 = Ok ([], 0)
     ∧ _validate_room C [] 0 = Ok ()
     ∧ ∀ rs, parse_rooms_loop C [g] rs = Ok (rs ++ [[]]))
  ∧ (∀ (now : datetime) (root : element) (pd : parsed_data),
       parse_xml C now root = Ok pd →
       ∃ rs, _parse_rooms C root = Ok rs
             ∧ length rs = length (ET.findall root path_paxes)
             ∧ pd_rooms pd = (if decide (rs = []) then None else Some rs)
             ∧ (∀ g, g ∈ ET.findall root path_paxes → ET.findall g path_pax = [] →
                  pd_rooms pd = Some rs ∧ [] ∈ rs)
             ∧ (ET.findall root path_paxes = [] → pd_rooms pd = None))
  ∧ (∀ (env : environment) (pd : parsed_data),
       rooms (generate_response C env pd) = pd_rooms pd).
Proof.
  intros Hc Hg. repeat apply conj.
  - intros g Hempty. rewrite Hempty. simpl.
    assert (_validate_room C [] 0 = Ok ()) as Hv.
    { rewrite validate_room_cases. change (Z.of_nat (length [])) with 0.
      repeat case_decide; done || lia. }
    repeat split; [done|]. intros rs. rewrite Hempty. simpl. by rewrite Hv.
  - intros now root pd H.
    apply parse_xml_Ok in H as (f & rs & sd & ed & _ & _ & Hr & _ & _ & ->).
    exists rs. split; [done|].
    pose proof Hr as Hspec. apply parse_rooms_loop_spec in Hspec as (new & Hnew & Hrooms & _).
    simpl in Hnew. subst new.
    assert (pd_rooms (response_data f rs sd ed) = if decide (rs = []) then None else Some rs)
      as Hkey by (by destruct rs).
    split; [|split; [|split]].
    + symmetry. by eapply Forall2_length.
    + done.
    + intros g Hin_g Hempty.
      apply list_elem_of_lookup in Hin_g as [i Hi].
      destruct (Forall2_lookup_l _ _ _ _ _ Hrooms Hi) as (r & Hr' & Hguests).
      rewrite Hempty in Hguests. apply Forall2_nil_inv_l in Hguests. subst r.
      assert ([] ∈ rs) as Hin by (apply list_elem_of_lookup; by exists i).
      split; [|done]. rewrite Hkey. destruct rs; [|done]. by apply elem_of_nil in Hin.
    + intros Hnone. rewrite Hnone in Hrooms. apply Forall2_nil_inv_l in Hrooms. by subst rs.
  - done.
Qed.

Lemma empty_room_and_rooms_key_witness :
  (∀ g : element, ET.findall g path_pax = [] →
     parse_paxes Sample.config (ET.findall g path_pax) [] 0 = Ok ([], 0)
     ∧ _validate_room Sample.config [] 0 = Ok ()
     ∧ ∀ rs, parse_rooms_loop Sample.config [g] rs = Ok (rs ++ [[]]))
  ∧ (∀ (now : datetime) (root : element) (pd : parsed_data),
       parse_xml Sample.config now root = Ok pd →
       ∃ rs, _parse_rooms Sample.config root = Ok rs
             ∧ length rs = length (ET.findall root path_paxes)
             ∧ pd_rooms pd = (if decide (rs = []) then None else Some rs)
             ∧ (∀ g, g ∈ ET.findall root path_paxes → ET.findall g path_pax = [] →
                  pd_rooms pd = Some rs ∧ [] ∈ rs)
             ∧ (ET.findall root path_paxes = [] → pd_rooms pd = None))
  ∧ (∀ (env : environment) (pd : parsed_data),
       rooms (generate_response Sample.config env pd) = pd_rooms pd).
Proof. apply (empty_room_and_rooms_key Sample.config); simpl; lia. Defined.

(** A document with one empty occupancy group, and one with none. *)
Example empty_group_has_rooms_key :
  ∃ r, process_request Sample.config Sample.env
         (Sample.request "25/02/2025" "28/02/2025" Sample.credentials [[]]) = Ok [r]
       ∧ rooms r = Some [[]].
Proof. eexists. split; vm_compute; reflexivity. Qed.

Example no_group_has_no_rooms_key :
  ∃ r, process_request Sample.config Sample.env
         (Sample.request "25/02/2025" "28/02/2025" Sample.credentials []) = Ok [r]
       ∧ rooms r = None.
Proof. eexists. split; vm_compute; reflexivity. Qed.

(** What [ET.findtext_default] gives for the element found, or for none. *)
Lemma findtext_default_absent (root : element) (path : list ET.step) (d : string) :
  ET.find root path = None → ET.findtext_default root path d = d.
Proof. intros H. unfold ET.findtext_default, ET.findtext. by rewrite H. Qed.

Lemma findtext_default_present (root x : element) (path : list ET.step) (d s : string) :
  ET.find root path = Some x → text x = Some s → ET.findtext_default root path d = s.
Proof. intros H Ht. unfold ET.findtext_default, ET.findtext. rewrite H. simpl. by rewrite Ht. Qed.

(** A document whose steps all pass is accepted with the quota that was
    read. *)
Lemma parse_xml_accepts (C : constants) (now : datetime) (root : element) (q : Z)
    (rs : list room) (sd ed : datetime) :
  Py.int (ET.findtext_default root path_options_quota "20") = Ok q →
  q ≤ 50 →
  validate_required_parameters root = Ok () →
  _parse_rooms C root = Ok rs →
  ET.findtext_default root path_language (DEFAULT_LANGUAGE C) ∈ VALID_LANGUAGES C →
  ET.findtext_default root path_currency (DEFAULT_CURRENCY C) ∈ VALID_CURRENCIES C →
  ET.findtext_default root path_nationality (DEFAULT_NATIONALITY C) ∈ VALID_NATIONALITIES C →
  _validate_dates now (ET.findtext root path_start_date) (ET.findtext root path_end_date)
  = Ok (sd, ed) →
  ∃ pd, parse_xml C now root = Ok pd ∧ pd_options_quota pd = q.
Proof.
  intros Hq Hle Hp Hr Hl Hc Hn Hd.
  set (f := Fields (ET.findtext_default root path_language (DEFAULT_LANGUAGE C)) q
              (ET.findtext_default root path_currency (DEFAULT_CURRENCY C))
              (ET.findtext_default root path_nationality (DEFAULT_NATIONALITY C))
              (ET.findtext root path_start_date) (ET.findtext root path_end_date)).
  exists (response_data f rs sd ed). split; [|reflexivity].
  apply parse_xml_Ok. exists f, rs, sd, ed. split.
  { apply extract_fields_Ok. exists q. by split. }
  subst f. simpl. repeat split; try done.
  rewrite validate_basic_fields_cases. repeat case_decide; done || lia.
Qed.

(** A document with a quota above 50 that passes the earlier steps and the
    three membership checks ends in the quota error. *)
Lemma parse_xml_rejects_quota (C : constants) (now : datetime) (root : element) (q : Z)
    (rs : list room) :
  Py.int (ET.findtext_default root path_options_quota "20") = Ok q →
  50 < q →
  validate_required_parameters root = Ok () →
  _parse_rooms C root = Ok rs →
  ET.findtext_default root path_language (DEFAULT_LANGUAGE C) ∈ VALID_LANGUAGES C →
  ET.findtext_default root path_currency (DEFAULT_CURRENCY C) ∈ VALID_CURRENCIES C →
  ET.findtext_default root path_nationality (DEFAULT_NATIONALITY C) ∈ VALID_NATIONALITIES C →
  parse_xml C now root = Raise (ValueError "optionsQuota cannot be greater than 50").
Proof.
  intros Hq Hgt Hp Hr Hl Hc Hn. unfold parse_xml, extract_fields.
  rewrite Hq. simpl. rewrite Hp. simpl. rewrite Hr. simpl.
  rewrite validate_basic_fields_cases. repeat case_decide; done || lia.
Qed.

(** C3. [_validate_basic_fields] checks the language, then the currency,
    then the nationality, then the quota, and raises at the first check that
    fails (an invalid nationality with the message "Invalid nationality: "
    followed by the value).  The quota is the integer that [int] reads from
    the text of the [optionsQuota] element of the document, 20 when the
    document has no such element: when it is at most 50 and every other step
    passes, the request is accepted and its record carries that integer
    unchanged; when it is above 50 and the earlier steps and the three
    membership checks pass, the request ends in the quota error; the record of
    an accepted request always carries the quota of the document, at most 50;
    and a request whose quota is above 50 is never accepted. *)
Theorem basic_field_validation (C : constants) :
  (∀ (language currency nationality : string) (q : Z),
     (language ∉ VALID_LANGUAGES C →
      _validate_basic_fields C language currency nationality q
      = Raise (ValueError ("Invalid language: " +:+ language)))
     ∧ (language ∈ VALID_LANGUAGES C → currency ∉ VALID_CURRENCIES C →
        _validate_basic_fields C language currency nationality q
        = Raise (ValueError ("Invalid currency: " +:+ currency)))
     ∧ (language ∈ VALID_LANGUAGES C → currency ∈ VALID_CURRENCIES C →
        nationality ∉ VALID_NATIONALITIES C →
        _validate_basic_fields C language currency nationality q
        = Raise (ValueError ("Invalid nationality: " +:+ nationality)))
     ∧ (language ∈ VALID_LANGUAGES C → currency ∈ VALID_CURRENCIES C →
        nationality ∈ VALID_NATIONALITIES C → 50 < q →
        _validate_basic_fields C language currency nationality q
        = Raise (ValueError "optionsQuota cannot be greater than 50"))
     ∧ (language ∈ VALID_LANGUAGES C → currency ∈ VALID_CURRENCIES C →
        nationality ∈ VALID_NATIONALITIES C → q ≤ 50 →
        _validate_basic_fields C language currency nationality q = Ok ()))
  ∧ (∀ root : element,
       ET.find root path_options_quota = None →
       ∃ f, extract_fields C root = Ok f ∧ f_options_quota f = 20)
  ∧ (∀ (root x : element) (s : string) (q : Z),
       ET.find root path_options_quota = Some x → text x = Some s → Py.int s = Ok q →
       ∃ f, extract_fields C root = Ok f ∧ f_options_quota f = q)
  ∧ (∀ (now : datetime) (root : element) (rs : list room) (sd ed : datetime),
       ET.find root path_options_quota = None →
       validate_required_parameters root = Ok () →
       _parse_rooms C root = Ok rs →
       ET.findtext_default root path_language (DEFAULT_LANGUAGE C) ∈ VALID_LANGUAGES C →
       ET.findtext_default root path_currency (DEFAULT_CURRENCY C) ∈ VALID_CURRENCIES C →
       ET.findtext_default root path_nationality (DEFAULT_NATIONALITY C)
       ∈ VALID_NATIONALITIES C →
       _validate_dates now (ET.findtext root path_start_date) (ET.findtext root path_end_date)
       = Ok (sd, ed) →
       ∃ pd, parse_xml C now root = Ok pd ∧ pd_options_quota pd = 20)
  ∧ (∀ (now : datetime) (root x : element) (s : string) (q : Z) (rs : list room)
       (sd ed : datetime),
       ET.find root path_options_quota = Some x → text x = Some s → Py.int s = Ok q →
       q ≤ 50 →
       validate_required_parameters root = Ok () →
       _parse_rooms C root = Ok rs →
       ET.findtext_default root path_language (DEFAULT_LANGUAGE C) ∈ VALID_LANGUAGES C →
       ET.findtext_default root path_currency (DEFAULT_CURRENCY C) ∈ VALID_CURRENCIES C →
       ET.findtext_default root path_nationality (DEFAULT_NATIONALITY C)
       ∈ VALID_NATIONALITIES C →
       _validate_dates now (ET.findtext root path_start_date) (ET.findtext root path_end_date)
       = Ok (sd, ed) →
       ∃ pd, parse_xml C now root = Ok pd ∧ pd_options_quota pd = q)
  ∧ (∀ (now : datetime) (root x : element) (s : string) (q : Z) (rs : list room),
       ET.find root path_options_quota = Some x → text x = Some s → Py.int s = Ok q →
       50 < q →
       validate_required_parameters root = Ok () →
       _parse_rooms C root = Ok rs →
       ET.findtext_default root path_language (DEFAULT_LANGUAGE C) ∈ VALID_LANGUAGES C →
       ET.findtext_default root path_currency (DEFAULT_CURRENCY C) ∈ VALID_CURRENCIES C →
       ET.findtext_default root path_nationality (DEFAULT_NATIONALITY C)
       ∈ VALID_NATIONALITIES C →
       parse_xml C now root = Raise (ValueError "optionsQuota cannot be greater than 50"))
  ∧ (∀ (now : datetime) (root : element) (pd : parsed_data),
       parse_xml C now root = Ok pd →
       Py.int (ET.findtext_default root path_options_quota "20") = Ok (pd_options_quota pd)
       ∧ pd_options_quota pd ≤ 50
       ∧ (ET.find root path_options_quota = None → pd_options_quota pd = 20)
       ∧ (∀ (x : element) (s : string),
            ET.find root path_options_quota = Some x → text x = Some s →
            Py.int s = Ok (pd_options_quota pd)))
  ∧ (∀ (now : datetime) (root : element) (f : fields),
       extract_fields C root = Ok f → 50 < f_options_quota f →
       ¬ is_ok (parse_xml C now root)).
Proof.
  split; [|split; [|split; [|split; [|split; [|split; [|split]]]]]].
  - intros language currency nationality q.
    rewrite validate_basic_fields_cases.
    repeat apply conj; intros; repeat case_decide; done || lia.
  - intros root Hnone. eexists. split.
    + apply extract_fields_Ok. eexists. split; [|reflexivity].
      by rewrite (findtext_default_absent root _ _ Hnone).
    + reflexivity.
  - intros root x s q Hx Hs Hq. eexists. split.
    + apply extract_fields_Ok. exists q. split; [|reflexivity].
      by rewrite (findtext_default_present root x _ _ s Hx Hs).
    + reflexivity.
  - intros now root rs sd ed Hnone Hp Hr Hl Hc Hn Hd.
    apply (parse_xml_accepts C now root 20 rs sd ed); try done.
    by rewrite (findtext_default_absent root _ _ Hnone).
  - intros now root x s q rs sd ed Hx Hs Hq Hle Hp Hr Hl Hc Hn Hd.
    apply (parse_xml_accepts C now root q rs sd ed); try done.
    by rewrite (findtext_default_present root x _ _ s Hx Hs).
  - intros now root x s q rs Hx Hs Hq Hgt Hp Hr Hl Hc Hn.
    apply (parse_xml_rejects_quota C now root q rs); try done.
    by rewrite (findtext_default_present root x _ _ s Hx Hs).
  - intros now root pd H.
    apply parse_xml_Ok in H as (f & rs & sd & ed & Hf & _ & _ & Hb & _ & ->).
    rewrite validate_basic_fields_cases in Hb.
    apply extract_fields_Ok in Hf as (q & Hq & ->). simpl in *.
    split; [done|]. split; [repeat case_decide; done || lia|]. split.
    + intros Hnone. rewrite (findtext_default_absent root _ _ Hnone) in Hq.
      by injection Hq as <-.
    + intros x s Hx Hs. by rewrite (findtext_default_present root x _ _ s Hx Hs) in Hq.
  - intros now root f Hf Hq Hok.
    destruct (parse_xml C now root) as [pd|e] eqn:Hpd; [|done].
    apply parse_xml_Ok in Hpd as (f' & rs & sd & ed & Hf' & _ & _ & Hb & _ & ->).
    rewrite Hf in Hf'. injection Hf' as <-.
    rewrite validate_basic_fields_cases in Hb.
    repeat case_decide; done || lia.
Qed.

(** The sample request with the quota 30 is accepted and its record carries
    30. *)
Lemma basic_field_validation_witness :
  ∃ pd, parse_xml Sample.config Sample.noon (request_with_quota "30") = Ok pd
        ∧ pd_options_quota pd = 30.
Proof.
  destruct (basic_field_validation Sample.config)
    as (_ & _ & _ & _ & Hpass & _).
  apply (Hpass Sample.noon (request_with_quota "30") (Sample.leaf "optionsQuota" "30") "30" 30
           [[Pax Adult 30; Pax Child 5]] (Datetime 739307 0) (Datetime 739310 0));
    try (vm_compute; reflexivity).
  - lia.
  - vm_compute. repeat constructor.
  - vm_compute. repeat constructor.
  - vm_compute. repeat constructor.
Defined.

(** Quotas other than the default. *)
Example quota_30_passed_through :
  pd_options_quota <$> result_to_option
    (parse_xml Sample.config Sample.noon (request_with_quota "30")) = Some 30.
Proof. vm_compute. reflexivity. Qed.

Example quota_50_passed_through :
  pd_options_quota <$> result_to_option
    (parse_xml Sample.config Sample.noon (request_with_quota "50")) = Some 50.
Proof. vm_compute. reflexivity. Qed.

Example quota_negative_passed_through :
  pd_options_quota <$> result_to_option
    (parse_xml Sample.config Sample.noon (request_with_quota "-7")) = Some (-7).
Proof. vm_compute. reflexivity. Qed.

Example quota_51_rejected :
  parse_xml Sample.config Sample.noon (request_with_quota "51")
  = Raise (ValueError "optionsQuota cannot be greater than 50").
Proof. vm_compute. reflexivity. Qed.

Example quota_60_rejected :
  parse_xml Sample.config Sample.noon (request_with_quota "60")
  = Raise (ValueError "optionsQuota cannot be greater than 50").
Proof. vm_compute. reflexivity. Qed.

Example quota_absent_is_20 :
  pd_options_quota <$> result_to_option
    (parse_xml Sample.config Sample.noon
       (Sample.without "optionsQuota"
          (Sample.request "25/02/2025" "28/02/2025" Sample.credentials [["30"; "5"]])))
  = Some 20.
Proof. vm_compute. reflexivity. Qed.

Example quota_not_an_integer :
  parse_xml Sample.config Sample.noon (request_with_quota "many")
  = Raise (ValueError "invalid literal for int() with base 10: 'many'").
Proof. vm_compute. reflexivity. Qed.

(** The nationality of the repository's test. *)
Example nationality_XX :
  parse_xml Sample.config Sample.noon
    (Sample.request_in "USD" "XX" "25/02/2025" "28/02/2025" Sample.credentials [["30"; "5"]])
  = Raise (ValueError "Invalid nationality: XX").
Proof. vm_compute. reflexivity. Qed.

(** C6, as amended. Without an element at [Configuration/Parameters/Parameter]
    the check raises the missing-element error; with one, it raises the
    missing-parameter error that names the first of [password], [username],
    [CompanyID] that is not among its attributes, and passes when the three
    are there; and once the fields have been read, [parse_xml] raises what
    the check raises. *)
Theorem credential_block (root : element) :
  (ET.find root path_parameter = None →
   validate_required_parameters root
   = Raise (ValueError "Missing required <Parameter> element"))
  ∧ (∀ p : element,
       ET.find root path_parameter = Some p →
       (attrib p !! "password" = None →
        validate_required_parameters root
        = Raise (ValueError "Missing required parameter: password"))
       ∧ (is_Some (attrib p !! "password") → attrib p !! "username" = None →
          validate_required_parameters root
          = Raise (ValueError "Missing required parameter: username"))
       ∧ (is_Some (attrib p !! "password") → is_Some (attrib p !! "username") →
          attrib p !! "CompanyID" = None →
          validate_required_parameters root
          = Raise (ValueError "Missing required parameter: CompanyID"))
       ∧ (is_Some (attrib p !! "password") → is_Some (attrib p !! "username") →
          is_Some (attrib p !! "CompanyID") →
          validate_required_parameters root = Ok ()))
  ∧ (∀ (C : constants) (now : datetime) (f : fields) (e : exception),
       extract_fields C root = Ok f →
       validate_required_parameters root = Raise e →
       parse_xml C now root = Raise e).
Proof.
  unfold validate_required_parameters. repeat apply conj.
  - intros ->. done.
  - intros p ->. simpl.
    repeat apply conj; intros; repeat case_decide; try done;
      repeat match goal with
             | H : is_Some ?o, H' : ?o = None |- _ => rewrite H' in H; by destruct H
             end.
  - intros C now f e Hf Hp. unfold parse_xml.
    rewrite Hf. simpl. unfold validate_required_parameters. rewrite Hp. done.
Qed.

(** C6, as stated, fails: an element with the attributes [password],
    [username] and [companyID] is rejected for the lack of [CompanyID]. *)
Lemma lowercase_companyID_rejected :
  ¬ credentials_accepted ["password"; "username"; "companyID"].
Proof.
  intros H.
  specialize (H (Sample.request "25/02/2025" "28/02/2025" Sample.lowercase_credentials [])
                (Element "Parameter" Sample.lowercase_credentials None [])).
  assert (validate_required_parameters
            (Sample.request "25/02/2025" "28/02/2025" Sample.lowercase_credentials [])
          = Raise (ValueError "Missing required parameter: CompanyID")) as Hraise
    by (vm_compute; reflexivity).
  rewrite Hraise in H. discriminate H.
  - vm_compute. reflexivity.
  - intros k Hk. repeat (apply elem_of_cons in Hk as [->|Hk]; [by eexists|]).
    by apply elem_of_nil in Hk.
Qed.

(** C8. A request goes through the reading of the fields and of the
    credential block, the building and checking of the rooms, the check of
    the basic fields, the check of the dates and the pricing, in this order;
    the first step that raises decides the outcome of [process_request], which
    is that same exception, whatever the later steps would have done; and
    only when every step has passed is there an output, the one response built
    from the record. *)
Theorem pipeline_order (C : constants) (env : environment) (root : element) :
  (∀ e, extract_fields C root = Raise e → process_request C env root = Raise e)
  ∧ (∀ f, extract_fields C root = Ok f →
     (∀ e, validate_required_parameters root = Raise e →
           process_request C env root = Raise e)
     ∧ (validate_required_parameters root = Ok () →
        (∀ e, _parse_rooms C root = Raise e → process_request C env root = Raise e)
        ∧ (∀ rs, _parse_rooms C root = Ok rs →
           (∀ e, _validate_basic_fields C (f_language f) (f_currency f) (f_nationality f)
                   (f_options_quota f) = Raise e →
                 process_request C env root = Raise e)
           ∧ (_validate_basic_fields C (f_language f) (f_currency f) (f_nationality f)
                (f_options_quota f) = Ok () →
              (∀ e, _validate_dates (today env) (f_start_date_str f) (f_end_date_str f)
                    = Raise e →
                    process_request C env root = Raise e)
              ∧ (∀ sd ed, _validate_dates (today env) (f_start_date_str f) (f_end_date_str f)
                          = Ok (sd, ed) →
                          process_request C env root
                          = Ok [generate_response C env (response_data f rs sd ed)]))))).
Proof.
  unfold process_request, parse_xml. split.
  - intros e ->. done.
  - intros f ->. simpl. split.
    + intros e ->. done.
    + intros ->. simpl. split.
      * intros e ->. done.
      * intros rs ->. simpl. split.
        -- intros e ->. done.
        -- intros ->. simpl. split.
           ++ intros e ->. done.
           ++ intros sd ed ->. done.
Qed.

(** Two steps that would both fail: the earlier one is reported. *)
Example room_error_before_nationality_error :
  process_request Sample.config Sample.env
    (Sample.request_in "USD" "XX" "22/02/2025" "23/02/2025" Sample.credentials [["4"]])
  = Raise unaccompanied_child_error.
Proof. vm_compute. reflexivity. Qed.

Example nationality_error_before_date_error :
  process_request Sample.config Sample.env
    (Sample.request_in "USD" "XX" "22/02/2025" "23/02/2025" Sample.credentials [["30"]])
  = Raise (ValueError "Invalid nationality: XX").
Proof. vm_compute. reflexivity. Qed.

Example credential_error_before_room_error :
  process_request Sample.config Sample.env
    (Sample.request "25/02/2025" "28/02/2025" (delete "username" Sample.credentials) [["4"]])
  = Raise (ValueError "Missing required parameter: username").
Proof. vm_compute. reflexivity. Qed.

(** ** Pricing *)

(** The rate is the entry of the table, [1.0] when there is none. *)
Lemma get_exchange_rate_lookup (C : constants) (from_currency to_currency : string) :
  get_exchange_rate C from_currency to_currency =
    match EXCHANGE_RATES C !! (from_currency, to_currency) with
    | Some rate => rate
    | None => 1%float
    end.
Proof. reflexivity. Qed.

(** C5. The output of a successful request is one response; its currency is
    the one read from the document (the default when the document has none);
    its exchange rate is the entry of the rate table for the pair of "USD" and
    that currency, and 1.0 when the table has no such entry; and its selling
    price is the net price plus the net price times the hundredth of the
    markup, rounded to 2 decimal places, times that rate. *)
Theorem selling_price_formula (C : constants) (env : environment) (root : element)
    (out : list response) :
  process_request C env root = Ok out →
  ∃ r : response,
    out = [r]
    ∧ currency (price_of r) = ET.findtext_default root path_currency (DEFAULT_CURRENCY C)
    ∧ exchange_rate (price_of r) =
        match EXCHANGE_RATES C !! ("USD", currency (price_of r)) with
        | Some rate => rate
        | None => 1%float
        end
    ∧ selling_price (price_of r) =
        (PyFloat.round (NET_PRICE C + NET_PRICE C * (MARKUP_PERCENTAGE C / 100)) 2
         * exchange_rate (price_of r))%float.
Proof.
  intros H. apply process_request_Ok in H as (pd & Hpd & ->).
  eexists. split; [reflexivity|]. simpl.
  apply parse_xml_Ok in Hpd as (f & rs & sd & ed & Hf & _ & _ & _ & _ & ->).
  apply extract_fields_Ok in Hf as (q & _ & ->). simpl. done.
Qed.

Lemma selling_price_formula_witness :
  ∃ r : response,
    [Response "A#20250222120000-1b4e28ba" "39971881" "US"
       (Price None "USD" 132.42 136.66 "USD" 3.2 1) (Some [[Pax Adult 30; Pax Child 5]])] = [r]
    ∧ currency (price_of r)
      = ET.findtext_default
          (Sample.request "25/02/2025" "28/02/2025" Sample.credentials [["30"; "5"]])
          path_currency (DEFAULT_CURRENCY Sample.config)
    ∧ exchange_rate (price_of r) =
        match EXCHANGE_RATES Sample.config !! ("USD", currency (price_of r)) with
        | Some rate => rate
        | None => 1%float
        end
    ∧ selling_price (price_of r) =
        (PyFloat.round (NET_PRICE Sample.config
                        + NET_PRICE Sample.config * (MARKUP_PERCENTAGE Sample.config / 100)) 2
         * exchange_rate (price_of r))%float.
Proof.
  apply (selling_price_formula Sample.config Sample.env
           (Sample.request "25/02/2025" "28/02/2025" Sample.credentials [["30"; "5"]])).
  vm_compute. reflexivity.
Defined.

(** The price of the sample configuration in two currencies: the pair of
    "USD" with itself is not in the table and falls back to the rate 1.0. *)
Example price_in_USD :
  ∃ r, process_request Sample.config Sample.env
         (Sample.request_in "USD" "US" "25/02/2025" "28/02/2025" Sample.credentials []) = Ok [r]
       ∧ exchange_rate (price_of r) = 1%float
       ∧ selling_price (price_of r) = 136.66%float.
Proof. eexists. repeat split; vm_compute; reflexivity. Qed.

Example price_in_EUR :
  ∃ r, process_request Sample.config Sample.env
         (Sample.request_in "EUR" "US" "25/02/2025" "28/02/2025" Sample.credentials []) = Ok [r]
       ∧ exchange_rate (price_of r) = 0.85%float
       ∧ selling_price (price_of r) = (136.66 * 0.85)%float.
Proof. eexists. repeat split; vm_compute; reflexivity. Qed.

(** ** The runtime functions on examples *)

Example int_plain : Py.int "20" = Ok 20.
Proof. reflexivity. Qed.

Example int_negative : Py.int " -3 " = Ok (-3).
Proof. reflexivity. Qed.

Example int_underscore : Py.int "1_000" = Ok 1000.
Proof. reflexivity. Qed.

Example int_empty :
  Py.int EmptyString = Raise (ValueError "invalid literal for int() with base 10: ''").
Proof. reflexivity. Qed.

Example strptime_padded : DT.strptime (Some "25/02/2025") = Ok (Datetime 739307 0).
Proof. reflexivity. Qed.

Example strptime_leap_day : DT.strptime (Some "29/2/2024") = Ok (Datetime 738945 0).
Proof. reflexivity. Qed.

Example strptime_no_such_day :
  DT.strptime (Some "30/02/2025") = Raise (ValueError "day is out of range for month").
Proof. reflexivity. Qed.

Example strptime_trailing_text :
  DT.strptime (Some "28/02/20255") = Raise (ValueError "unconverted data remains: 5").
Proof. reflexivity. Qed.

Example round_ties_to_even : PyFloat.round 0.125 2 = 0.12%float.
Proof. vm_compute. reflexivity. Qed.

Example round_binary_value : PyFloat.round 2.675 2 = 2.67%float.
Proof. vm_compute. reflexivity. Qed.

Example round_selling_price :
  calculate_selling_price 132.42 3.2 = 136.66%float.
Proof. vm_compute. reflexivity. Qed.

(** * Further properties of the parser *)

(** ** What an accepted request guarantees *)

(** An accepted record carries the texts read from the document (the
    defaults for absent elements), and they are allowed codes. *)
Theorem accepted_record_fields_valid (C : constants) (now : datetime) (root : element)
    (pd : parsed_data) :
  parse_xml C now root = Ok pd →
  pd_language pd = ET.findtext_default root path_language (DEFAULT_LANGUAGE C)
  ∧ pd_currency pd = ET.findtext_default root path_currency (DEFAULT_CURRENCY C)
  ∧ pd_nationality pd = ET.findtext_default root path_nationality (DEFAULT_NATIONALITY C)
  ∧ pd_language pd ∈ VALID_LANGUAGES C
  ∧ pd_currency pd ∈ VALID_CURRENCIES C
  ∧ pd_nationality pd ∈ VALID_NATIONALITIES C.
Proof.
  intros H. apply parse_xml_Ok in H as (f & rs & sd & ed & Hf & _ & _ & Hb & _ & ->).
  rewrite validate_basic_fields_cases in Hb.
  apply extract_fields_Ok in Hf as (q & _ & ->). simpl in *.
  repeat case_decide; try discriminate.
  repeat split; done.
Qed.

Lemma accepted_record_fields_valid_witness :
  let root := Sample.request "25/02/2025" "28/02/2025" Sample.credentials [["30"; "5"]] in
  let pd := ParsedData "en" 20 "USD" "US" (Datetime 739307 0) (Datetime 739310 0)
              "OCG_SECRET" (Some [[Pax Adult 30; Pax Child 5]]) in
  pd_language pd = ET.findtext_default root path_language (DEFAULT_LANGUAGE Sample.config)
  ∧ pd_currency pd = ET.findtext_default root path_currency (DEFAULT_CURRENCY Sample.config)
  ∧ pd_nationality pd
    = ET.findtext_default root path_nationality (DEFAULT_NATIONALITY Sample.config)
  ∧ pd_language pd ∈ VALID_LANGUAGES Sample.config
  ∧ pd_currency pd ∈ VALID_CURRENCIES Sample.config
  ∧ pd_nationality pd ∈ VALID_NATIONALITIES Sample.config.
Proof.
  apply (accepted_record_fields_valid Sample.config Sample.noon
           (Sample.request "25/02/2025" "28/02/2025" Sample.credentials [["30"; "5"]])).
  vm_compute. reflexivity.
Defined.

(** The dates of an accepted record are the two dates of the document, at
    midnight; the start date is at least two calendar days after the current
    date, three when the clock is past midnight; and the end date is at least
    three days after the start date. *)
Theorem accepted_dates_window (C : constants) (now : datetime) (root : element)
    (pd : parsed_data) :
  parse_xml C now root = Ok pd →
  DT.strptime (ET.findtext root path_start_date) = Ok (pd_start_date pd)
  ∧ DT.strptime (ET.findtext root path_end_date) = Ok (pd_end_date pd)
  ∧ usec (pd_start_date pd) = 0 ∧ usec (pd_end_date pd) = 0
  ∧ ordinal now + 2 ≤ ordinal (pd_start_date pd)
  ∧ (0 < usec now → ordinal now + 3 ≤ ordinal (pd_start_date pd))
  ∧ ordinal (pd_start_date pd) + 3 ≤ ordinal (pd_end_date pd).
Proof.
  intros H. apply parse_xml_Ok in H as (f & rs & sd & ed & Hf & _ & _ & _ & Hd & ->).
  apply extract_fields_Ok in Hf as (q & _ & ->). simpl in *.
  unfold _validate_dates in Hd.
  apply bind_Ok in Hd as (sd' & Hs & Hd). apply bind_Ok in Hd as (ed' & He & Hd).
  destruct (DT.lt sd' (DT.add_days now 2)) eqn:Hlt; [discriminate|].
  destruct (days (DT.sub ed' sd') <? 3) eqn:Hstay; [discriminate|].
  injection Hd as <- <-.
  pose proof (strptime_midnight _ _ Hs) as Hms.
  pose proof (strptime_midnight _ _ He) as Hme.
  rewrite sub_days_midnight in Hstay by done.
  apply Z.ltb_ge in Hstay.
  apply not_true_iff_false in Hlt. rewrite lt_spec in Hlt. simpl in Hlt.
  repeat split; try done; lia.
Qed.

Lemma accepted_dates_window_witness :
  let root := Sample.request "25/02/2025" "28/02/2025" Sample.credentials [["30"; "5"]] in
  let pd := ParsedData "en" 20 "USD" "US" (Datetime 739307 0) (Datetime 739310 0)
              "OCG_SECRET" (Some [[Pax Adult 30; Pax Child 5]]) in
  DT.strptime (ET.findtext root path_start_date) = Ok (pd_start_date pd)
  ∧ DT.strptime (ET.findtext root path_end_date) = Ok (pd_end_date pd)
  ∧ usec (pd_start_date pd) = 0 ∧ usec (pd_end_date pd) = 0
  ∧ ordinal Sample.noon + 2 ≤ ordinal (pd_start_date pd)
  ∧ (0 < usec Sample.noon → ordinal Sample.noon + 3 ≤ ordinal (pd_start_date pd))
  ∧ ordinal (pd_start_date pd) + 3 ≤ ordinal (pd_end_date pd).
Proof.
  apply (accepted_dates_window Sample.config Sample.noon
           (Sample.request "25/02/2025" "28/02/2025" Sample.credentials [["30"; "5"]])).
  vm_compute. reflexivity.
Defined.

(** When both dates parse, the lead-time error is raised exactly when the
    start date is less than two calendar days after the current date, or
    exactly two days after it with the clock past midnight. *)
Theorem lead_time_rejection_exact (now : datetime) (s e : option string) (sd ed : datetime) :
  DT.strptime s = Ok sd → DT.strptime e = Ok ed →
  (_validate_dates now s e = Raise lead_time_error
   ↔ ordinal sd < ordinal now + 2 ∨ (ordinal sd = ordinal now + 2 ∧ 0 < usec now)).
Proof.
  intros Hs He. rewrite (validate_dates_parsed now s e sd ed) by done.
  pose proof (strptime_midnight _ _ Hs) as Hm.
  destruct (DT.lt sd (DT.add_days now 2)) eqn:Hlt.
  - apply lt_spec in Hlt. simpl in Hlt. split; [lia|done].
  - apply not_true_iff_false in Hlt. rewrite lt_spec in Hlt. simpl in Hlt.
    split; [|lia]. case_match; discriminate.
Qed.

Lemma lead_time_rejection_exact_witness :
  _validate_dates Sample.noon (Some "24/02/2025") (Some "28/02/2025") = Raise lead_time_error
  ↔ ordinal (Datetime 739306 0) < ordinal Sample.noon + 2
    ∨ (ordinal (Datetime 739306 0) = ordinal Sample.noon + 2 ∧ 0 < usec Sample.noon).
Proof.
  apply (lead_time_rejection_exact Sample.noon (Some "24/02/2025") (Some "28/02/2025")
           (Datetime 739306 0) (Datetime 739310 0)); reflexivity.
Defined.

(** ** Rooms: what is built, and when *)

(** [_validate_room] passes a room exactly when the room keeps the three
    occupancy rules. *)
Lemma validate_room_ok_iff (C : constants) (r : room) :
  _validate_room C r (count_children r) = Ok () ↔ room_ok C r.
Proof.
  rewrite validate_room_cases. unfold room_ok. split.
  - intros H. repeat case_decide; try discriminate.
    split; [lia|]. split; [lia|]. intros Hchild.
    apply count_children_pos in Hchild.
    destruct (decide (Forall (fun p => type p = Child) r)) as [Hall|Hnot].
    + exfalso. auto.
    + apply not_Forall_Exists in Hnot; [|apply _].
      apply Exists_exists in Hnot as (p & Hp & Hty).
      exists p. split; [done|]. destruct (type p) eqn:Hp'; [by destruct Hty | done].
  - intros (Hc & Hg & Hacc).
    rewrite decide_False by lia. rewrite decide_False by lia.
    case_decide as Hn; [|done]. destruct Hn as [Hpos Hall].
    apply count_children_pos in Hpos.
    destruct (Hacc Hpos) as (p & Hp & Ha).
    rewrite Forall_forall in Hall. specialize (Hall p Hp). congruence.
Qed.

(** A [Pax] element determines its guest. *)
Lemma guest_of_functional (C : constants) (e : element) (p p' : pax) :
  guest_of C e p → guest_of C e p' → p = p'.
Proof.
  intros [Ha Ht] [Ha' Ht']. rewrite Ha in Ha'. injection Ha' as Hage.
  destruct p as [ty a], p' as [ty' a']. simpl in *. subst a'. congruence.
Qed.

Lemma parse_paxes_complete (C : constants) (es : list element) (new pl : room) (cc : Z) :
  Forall2 (guest_of C) es new →
  parse_paxes C es pl cc = Ok (pl ++ new, cc + count_children new).
Proof.
  intros Hall. revert pl cc.
  induction Hall as [|e p es new [Ha Ht] Hall IH]; intros pl cc; simpl.
  - rewrite app_nil_r, count_children_nil. do 2 f_equal. lia.
  - rewrite Ha. simpl.
    assert ((if age p <=? CHILD_AGE_LIMIT C then Child else Adult) = type p) as Hty.
    { rewrite Ht. destruct (Z.leb_spec (age p) (CHILD_AGE_LIMIT C));
        [by rewrite decide_True | by rewrite decide_False by lia]. }
    rewrite Hty. rewrite IH. rewrite <- app_assoc. simpl.
    rewrite count_children_cons. destruct p as [ty a]. simpl.
    do 2 f_equal. destruct (decide (ty = Child)); lia.
Qed.

Lemma parse_rooms_loop_complete (C : constants) (gs : list element) (new acc : list room) :
  rooms_of C gs new → Forall (room_ok C) new →
  parse_rooms_loop C gs acc = Ok (acc ++ new).
Proof.
  intros Hrooms. revert acc.
  induction Hrooms as [|g r gs new Hg Hrooms IH]; intros acc Hok; simpl.
  - by rewrite app_nil_r.
  - apply Forall_cons in Hok as [Hr Hok].
    rewrite (parse_paxes_complete C _ r [] 0 Hg). simpl.
    replace (0 + count_children r) with (count_children r) by lia.
    apply validate_room_ok_iff in Hr. rewrite Hr. simpl.
    rewrite IH by done. by rewrite <- app_assoc.
Qed.

(** [_parse_rooms] returns the list [rs] exactly when [rs] has, for each
    occupancy group of the document in order, the guests read from its [Pax]
    elements, and every one of these rooms keeps the three occupancy rules. *)
Theorem parse_rooms_exact (C : constants) (root : element) (rs : list room) :
  _parse_rooms C root = Ok rs ↔
  rooms_of C (ET.findall root path_paxes) rs ∧ Forall (room_ok C) rs.
Proof.
  split.
  - intros H. apply parse_rooms_loop_spec in H as (new & -> & Hrooms & Hvalid).
    simpl. split; [done|]. eapply Forall_impl; [exact Hvalid|].
    intros r Hr. by apply validate_room_ok_iff.
  - intros [Hrooms Hok]. unfold _parse_rooms.
    by rewrite (parse_rooms_loop_complete C _ rs []).
Qed.

(** ** The exceptions a request can end in *)

Lemma int_raises_value_error (s : string) (e : exception) :
  Py.int s = Raise e → ∃ msg, e = ValueError msg.
Proof. unfold Py.int. destruct (Py.int_literal s); [discriminate|]. intros [= <-]. eauto. Qed.

Lemma check_params_raises_value_error (params : list string) (p : element) (e : exception) :
  check_params params p = Raise e → ∃ msg, e = ValueError msg.
Proof.
  induction params as [|k params IH]; simpl; [discriminate|].
  case_decide; [intros [= <-]; eauto | exact IH].
Qed.

Lemma validate_required_parameters_raises_value_error (root : element) (e : exception) :
  validate_required_parameters root = Raise e → ∃ msg, e = ValueError msg.
Proof.
  unfold validate_required_parameters. destruct (ET.find root path_parameter).
  - apply check_params_raises_value_error.
  - intros [= <-]. eauto.
Qed.

Lemma validate_room_raises_value_error (C : constants) (r : room) (cc : Z) (e : exception) :
  _validate_room C r cc = Raise e → ∃ msg, e = ValueError msg.
Proof.
  rewrite validate_room_cases. repeat case_decide; try discriminate; intros [= <-];
    unfold exceeded_children_error, exceeded_guests_error, unaccompanied_child_error; eauto.
Qed.

Lemma parse_paxes_raises_value_error (C : constants) (es : list element) (pl : room) (cc : Z)
    (e : exception) :
  parse_paxes C es pl cc = Raise e → ∃ msg, e = ValueError msg.
Proof.
  revert pl cc. induction es as [|x es IH]; intros pl cc; simpl; [discriminate|].
  intros H. apply bind_Raise in H as [H | (a & _ & H)].
  - by eapply int_raises_value_error.
  - by eapply IH.
Qed.

Lemma parse_rooms_raises_value_error (C : constants) (root : element) (e : exception) :
  _parse_rooms C root = Raise e → ∃ msg, e = ValueError msg.
Proof.
  unfold _parse_rooms. generalize (@nil room).
  induction (ET.findall root path_paxes) as [|g gs IH]; intros acc; simpl; [discriminate|].
  intros H. apply bind_Raise in H as [H | ([pl cc] & _ & H)].
  - by eapply parse_paxes_raises_value_error.
  - apply bind_Raise in H as [H | ([] & _ & H)].
    + by eapply validate_room_raises_value_error.
    + by eapply IH.
Qed.

Lemma validate_basic_fields_raises_value_error (C : constants) (l c n : string) (q : Z)
    (e : exception) :
  _validate_basic_fields C l c n q = Raise e → ∃ msg, e = ValueError msg.
Proof.
  rewrite validate_basic_fields_cases.
  repeat case_decide; try discriminate; intros [= <-]; eauto.
Qed.

Lemma strptime_some_raises_value_error (s : string) (e : exception) :
  DT.strptime (Some s) = Raise e → ∃ msg, e = ValueError msg.
Proof.
  unfold DT.strptime. destruct (DT.scan_dmY s) as [[[[d m] y] rest]|].
  - destruct rest; [|intros [= <-]; eauto].
    unfold DT.make. repeat case_match; try discriminate; intros [= <-]; eauto.
  - intros [= <-]. eauto.
Qed.

(** Once the text has been parsed, every exception is a [ValueError], except
    the [TypeError] of [strptime], which only a document without a
    [StartDate] or without an [EndDate] element can end in. *)
Lemma parsed_document_errors (C : constants) (env : environment) (root : element)
    (e : exception) :
  process_request C env root = Raise e →
  (∃ msg, e = ValueError msg)
  ∨ (e = strptime_none_error
     ∧ (ET.find root path_start_date = None ∨ ET.find root path_end_date = None)).
Proof.
  unfold process_request. destruct (parse_xml C (today env) root) as [pd|e'] eqn:H; [discriminate|].
  intros [= ->]. unfold parse_xml in H.
  apply bind_Raise in H as [H | (f & Hf & H)].
  { left. unfold extract_fields in H. apply bind_Raise in H as [H | (q & _ & H)]; [|discriminate].
    by eapply int_raises_value_error. }
  apply bind_Raise in H as [H | ([] & _ & H)].
  { left. by eapply validate_required_parameters_raises_value_error. }
  apply bind_Raise in H as [H | (rs & _ & H)].
  { left. by eapply parse_rooms_raises_value_error. }
  apply bind_Raise in H as [H | ([] & _ & H)].
  { left. by eapply validate_basic_fields_raises_value_error. }
  apply bind_Raise in H as [H | ([sd ed] & _ & H)]; [|discriminate].
  apply extract_fields_Ok in Hf as (q & _ & ->). simpl in H.
  unfold _validate_dates in H.
  unfold ET.findtext in H.
  destruct (ET.find root path_start_date) as [x|]; [|right; split; [|by left]].
  - destruct (ET.find root path_end_date) as [y|]; [left|].
    + simpl in H. apply bind_Raise in H as [H | (sd & _ & H)].
      { by eapply strptime_some_raises_value_error. }
      apply bind_Raise in H as [H | (ed & _ & H)].
      { by eapply strptime_some_raises_value_error. }
      repeat case_match; try discriminate; injection H as <-; eauto.
    + simpl in H. apply bind_Raise in H as [H | (sd & _ & H)].
      { left. by eapply strptime_some_raises_value_error. }
      simpl in H. injection H as <-. right. split; [done|by right].
  - simpl in H. by injection H as <-.
Qed.

(** The exceptions of [process_request], from the text on, with a clock at
    least two days before the end of the year 9999 (so that
    [datetime.today() + timedelta(days=2)] is a date): the [ParseError] of the
    XML parser, raised exactly for a text that is not well-formed; a
    [ValueError]; or the [TypeError] of [strptime], which only a well-formed
    document without a [StartDate] or without an [EndDate] element can end
    in. *)
Theorem request_errors (fromstring : string → element + string) (C : constants)
    (env : environment) (xml_data : string) (e : exception) :
  ordinal (today env) + 2 ≤ max_ordinal →
  process_request_text fromstring C env xml_data = Raise e →
  (∃ msg, fromstring xml_data = inr msg ∧ e = ParseError msg)
  ∨ (∃ root msg, fromstring xml_data = inl root ∧ e = ValueError msg)
  ∨ (∃ root, fromstring xml_data = inl root ∧ e = strptime_none_error
             ∧ (ET.find root path_start_date = None ∨ ET.find root path_end_date = None)).
Proof.
  intros _. unfold process_request_text, parse_xml_text, parse_text.
  destruct (fromstring xml_data) as [root|msg] eqn:Hparse; simpl.
  - intros H. right.
    destruct (parsed_document_errors C env root e) as [[m ->] | [-> Hdate]].
    + unfold process_request. by destruct (parse_xml C (today env) root).
    + left. by exists root, m.
    + right. by exists root.
  - intros [= <-]. left. by exists msg.
Qed.

(** A text that is not well-formed ends in the [ParseError]. *)
Lemma request_errors_witness :
  (∃ msg, sample_fromstring malformed_text = inr msg
          ∧ ParseError malformed_message = ParseError msg)
  ∨ (∃ root msg, sample_fromstring malformed_text = inl root
                 ∧ ParseError malformed_message = ValueError msg)
  ∨ (∃ root, sample_fromstring malformed_text = inl root
             ∧ ParseError malformed_message = strptime_none_error
             ∧ (ET.find root path_start_date = None
                ∨ ET.find root path_end_date = None)).
Proof.
  apply (request_errors sample_fromstring Sample.config Sample.env malformed_text).
  - vm_compute. discriminate.
  - vm_compute. reflexivity.
Defined.

(** The well-formed sample text, whose nationality is not allowed, ends in a
    [ValueError]. *)
Example sample_text_value_error :
  process_request_text sample_fromstring Sample.config Sample.env sample_text
  = Raise (ValueError "Invalid nationality: XX").
Proof. vm_compute. reflexivity. Qed.

(** On a well-formed text the two entry points agree. *)
Lemma process_request_text_parsed (fromstring : string → element + string) (C : constants)
    (env : environment) (xml_data : string) (root : element) :
  fromstring xml_data = inl root →
  process_request_text fromstring C env xml_data = process_request C env root.
Proof.
  intros H. unfold process_request_text, parse_xml_text, parse_text, process_request.
  by rewrite H.
Qed.

Example max_ordinal_is_last_day : DT.ymd2ord 9999 12 31 = max_ordinal.
Proof. reflexivity. Qed.

(** ** Absent and empty elements *)

(** For an accepted request: a language, currency or nationality element
    that is absent gives the configured default, which is then an allowed
    code; one that is present without text gives the empty string, not the
    default, so the empty string is then an allowed code. *)
Theorem defaults_and_empty_elements (C : constants) (now : datetime) (root : element)
    (pd : parsed_data) :
  parse_xml C now root = Ok pd →
  (ET.find root path_language = None →
   pd_language pd = DEFAULT_LANGUAGE C ∧ DEFAULT_LANGUAGE C ∈ VALID_LANGUAGES C)
  ∧ (ET.find root path_currency = None →
     pd_currency pd = DEFAULT_CURRENCY C ∧ DEFAULT_CURRENCY C ∈ VALID_CURRENCIES C)
  ∧ (ET.find root path_nationality = None →
     pd_nationality pd = DEFAULT_NATIONALITY C
     ∧ DEFAULT_NATIONALITY C ∈ VALID_NATIONALITIES C)
  ∧ (∀ x, ET.find root path_language = Some x → text x = None →
       pd_language pd = EmptyString ∧ EmptyString ∈ VALID_LANGUAGES C)
  ∧ (∀ x, ET.find root path_currency = Some x → text x = None →
       pd_currency pd = EmptyString ∧ EmptyString ∈ VALID_CURRENCIES C)
  ∧ (∀ x, ET.find root path_nationality = Some x → text x = None →
       pd_nationality pd = EmptyString ∧ EmptyString ∈ VALID_NATIONALITIES C).
Proof.
  intros H. apply parse_xml_Ok in H as (f & rs & sd & ed & Hf & _ & _ & Hb & _ & ->).
  rewrite validate_basic_fields_cases in Hb.
  apply extract_fields_Ok in Hf as (q & _ & ->). simpl in *.
  repeat case_decide; try discriminate.
  unfold ET.findtext_default, ET.findtext in *.
  repeat apply conj.
  - intros Hn. rewrite Hn in *. simpl in *. done.
  - intros Hn. rewrite Hn in *. simpl in *. done.
  - intros Hn. rewrite Hn in *. simpl in *. done.
  - intros x Hx Ht. rewrite Hx in *. simpl in *. rewrite Ht in *. simpl in *.
    done.
  - intros x Hx Ht. rewrite Hx in *. simpl in *. rewrite Ht in *. simpl in *.
    done.
  - intros x Hx Ht. rewrite Hx in *. simpl in *. rewrite Ht in *. simpl in *.
    done.
Qed.

Lemma defaults_and_empty_elements_witness :
  let root := Sample.without "Nationality"
                (Sample.request "25/02/2025" "28/02/2025" Sample.credentials [["30"; "5"]]) in
  let pd := ParsedData "en" 20 "USD" "US" (Datetime 739307 0) (Datetime 739310 0)
              "OCG_SECRET" (Some [[Pax Adult 30; Pax Child 5]]) in
  (ET.find root path_language = None →
   pd_language pd = DEFAULT_LANGUAGE Sample.config
   ∧ DEFAULT_LANGUAGE Sample.config ∈ VALID_LANGUAGES Sample.config)
  ∧ (ET.find root path_currency = None →
     pd_currency pd = DEFAULT_CURRENCY Sample.config
     ∧ DEFAULT_CURRENCY Sample.config ∈ VALID_CURRENCIES Sample.config)
  ∧ (ET.find root path_nationality = None →
     pd_nationality pd = DEFAULT_NATIONALITY Sample.config
     ∧ DEFAULT_NATIONALITY Sample.config ∈ VALID_NATIONALITIES Sample.config)
  ∧ (∀ x, ET.find root path_language = Some x → text x = None →
       pd_language pd = EmptyString ∧ EmptyString ∈ VALID_LANGUAGES Sample.config)
  ∧ (∀ x, ET.find root path_currency = Some x → text x = None →
       pd_currency pd = EmptyString ∧ EmptyString ∈ VALID_CURRENCIES Sample.config)
  ∧ (∀ x, ET.find root path_nationality = Some x → text x = None →
       pd_nationality pd = EmptyString ∧ EmptyString ∈ VALID_NATIONALITIES Sample.config).
Proof.
  apply (defaults_and_empty_elements Sample.config Sample.noon
           (Sample.without "Nationality"
              (Sample.request "25/02/2025" "28/02/2025" Sample.credentials [["30"; "5"]]))).
  vm_compute. reflexivity.
Defined.

(** An empty [Currency] element is read as the empty string, which the sample
    configuration does not allow. *)
Example empty_currency_element_rejected :
  parse_xml Sample.config Sample.noon
    (with_child (Element "Currency" ∅ None [])
       (Sample.without "Currency"
          (Sample.request "25/02/2025" "28/02/2025" Sample.credentials [["30"; "5"]])))
  = Raise (ValueError "Invalid currency: ").
Proof. vm_compute. reflexivity. Qed.

(** ** Nested occupancy groups *)

(** Induction on an element with the property known for its children. *)
Lemma element_children_ind (P : element → Prop) :
  (∀ t a x cs, Forall P cs → P (Element t a x cs)) → ∀ e, P e.
Proof.
  intros H. fix IH 1. intros [t a x cs]. apply H.
  induction cs as [|c cs IHcs]; constructor; [apply IH | apply IHcs].
Qed.

Lemma elem_of_flat_map {A B : Type} (f : A → list B) (l : list A) (y : B) :
  y ∈ flat_map f l ↔ ∃ x, x ∈ l ∧ y ∈ f x.
Proof.
  rewrite list_elem_of_In, in_flat_map. split.
  - intros (x & Hx & Hy). exists x. by rewrite !list_elem_of_In.
  - intros (x & Hx & Hy). exists x. by rewrite <- !list_elem_of_In.
Qed.

Lemma iter_unfold (e : element) : ET.iter e = e :: flat_map ET.iter (children e).
Proof. by destruct e. Qed.

Lemma iter_self (e : element) : e ∈ ET.iter e.
Proof. rewrite iter_unfold. left. Qed.

(** The descendants of a descendant are descendants. *)
Lemma iter_trans (e x y : element) : x ∈ ET.iter e → y ∈ ET.iter x → y ∈ ET.iter e.
Proof.
  revert x y. induction e as [t a tx cs IH] using element_children_ind.
  intros x y Hx Hy. rewrite iter_unfold in Hx. simpl in Hx.
  apply elem_of_cons in Hx as [->|Hx]; [done|].
  apply elem_of_flat_map in Hx as (c & Hc & Hx).
  rewrite iter_unfold. simpl. right. apply elem_of_flat_map. exists c. split; [done|].
  rewrite Forall_forall in IH. by eapply IH.
Qed.

Lemma findall_descendant (e : element) (t : string) :
  ET.findall e [ET.Descendant t]
  = filter (fun d => tag d = t) (flat_map ET.iter (children e)).
Proof. unfold ET.findall. simpl. by rewrite app_nil_r. Qed.

(** An occupancy group nested in another is a group of the document too. *)
Lemma nested_group_found (root g h : element) :
  g ∈ ET.findall root path_paxes → h ∈ children g → tag h = "Paxes" →
  h ∈ ET.findall root path_paxes.
Proof.
  unfold path_paxes. rewrite findall_descendant.
  intros Hg Hh Ht. apply list_elem_of_filter in Hg as [_ Hg].
  apply list_elem_of_filter. split; [done|].
  apply elem_of_flat_map in Hg as (c & Hc & Hg).
  apply elem_of_flat_map. exists c. split; [done|].
  apply (iter_trans c g h); [done|].
  rewrite iter_unfold. right. apply elem_of_flat_map. exists h. split; [done|apply iter_self].
Qed.

(** The [Pax] elements of a nested group are a run of those of the group it
    is nested in. *)
Lemma nested_group_paxes (g h : element) :
  h ∈ children g → tag h = "Paxes" →
  ∃ l1 l2, ET.findall g path_pax = l1 ++ ET.findall h path_pax ++ l2.
Proof.
  intros Hh Ht. unfold path_pax. rewrite !findall_descendant.
  apply list_elem_of_split in Hh as (c1 & c2 & ->).
  rewrite flat_map_app. simpl. rewrite iter_unfold.
  rewrite filter_app. simpl. rewrite filter_cons_False by (rewrite Ht; discriminate).
  rewrite filter_app. eauto.
Qed.

(** Guests of a nested occupancy group are counted twice: when the rooms of a
    document are built, a [Paxes] element that is a child of another [Paxes]
    element gives a room of its own, and its guests are also a run of the
    guests of the room of the enclosing element. *)
Theorem nested_group_guests_shared (C : constants) (root g h : element) (rs : list room)
    (i : nat) :
  _parse_rooms C root = Ok rs →
  ET.findall root path_paxes !! i = Some g →
  h ∈ children g → tag h = "Paxes" →
  ∃ (j : nat) (r_g r_h a b : room),
    ET.findall root path_paxes !! j = Some h
    ∧ rs !! i = Some r_g ∧ rs !! j = Some r_h
    ∧ r_g = a ++ r_h ++ b.
Proof.
  intros Hrs Hi Hh Ht.
  apply parse_rooms_loop_spec in Hrs as (new & Hnew & Hrooms & _).
  simpl in Hnew. subst new.
  assert (h ∈ ET.findall root path_paxes) as Hin.
  { apply (nested_group_found root g h); [|done|done].
    apply list_elem_of_lookup. by exists i. }
  apply list_elem_of_lookup in Hin as [j Hj].
  destruct (Forall2_lookup_l _ _ _ _ _ Hrooms Hi) as (r_g & Hr_g & Hguests_g).
  destruct (Forall2_lookup_l _ _ _ _ _ Hrooms Hj) as (r_h & Hr_h & Hguests_h).
  destruct (nested_group_paxes g h Hh Ht) as (l1 & l2 & Hsplit).
  rewrite Hsplit in Hguests_g.
  apply Forall2_app_inv_l in Hguests_g as (a & rest & Ha & Hrest & ->).
  apply Forall2_app_inv_l in Hrest as (m & b & Hm & Hb & ->).
  assert (m = r_h) as ->.
  { clear -Hm Hguests_h. revert r_h Hguests_h.
    induction Hm as [|e p es m Hp Hm IH]; intros r_h Hguests_h.
    - by apply Forall2_nil_inv_l in Hguests_h.
    - apply Forall2_cons_inv_l in Hguests_h as (p' & r' & Hp' & Hr' & ->).
      f_equal; [by eapply guest_of_functional | by apply IH]. }
  by exists j, (a ++ r_h ++ b), r_h, a, b.
Qed.

Lemma nested_group_guests_shared_witness :
  ∃ (j : nat) (r_g r_h a b : room),
    ET.findall nested_request path_paxes !! j = Some (Sample.paxes_elem ["5"; "31"])
    ∧ [[Pax Adult 30; Pax Child 5; Pax Adult 31]; [Pax Child 5; Pax Adult 31]] !! 0%nat
      = Some r_g
    ∧ [[Pax Adult 30; Pax Child 5; Pax Adult 31]; [Pax Child 5; Pax Adult 31]] !! j
      = Some r_h
    ∧ r_g = a ++ r_h ++ b.
Proof.
  apply (nested_group_guests_shared Sample.config nested_request nested_group
           (Sample.paxes_elem ["5"; "31"])).
  - vm_compute. reflexivity.
  - vm_compute. reflexivity.
  - right. left.
  - reflexivity.
Defined.

(** ** The response *)

(** The response of a successful request: its market is the nationality of
    the document and an allowed one; its currency and selling currency are
    the currency of the document, an allowed one; net price and markup are
    the configured ones; the supplier code is fixed and there is no minimum
    selling price. *)
Theorem response_echoes_request (C : constants) (env : environment) (root : element)
    (out : list response) :
  process_request C env root = Ok out →
  ∃ r : response,
    out = [r]
    ∧ market r = ET.findtext_default root path_nationality (DEFAULT_NATIONALITY C)
    ∧ market r ∈ VALID_NATIONALITIES C
    ∧ currency (price_of r) ∈ VALID_CURRENCIES C
    ∧ selling_currency (price_of r) = currency (price_of r)
    ∧ net (price_of r) = NET_PRICE C
    ∧ markup (price_of r) = MARKUP_PERCENTAGE C
    ∧ minimumSellingPrice (price_of r) = None
    ∧ hotelCodeSupplier r = "39971881".
Proof.
  intros H. apply process_request_Ok in H as (pd & Hpd & ->).
  eexists. split; [reflexivity|]. simpl.
  apply parse_xml_Ok in Hpd as (f & rs & sd & ed & Hf & _ & _ & Hb & _ & ->).
  rewrite validate_basic_fields_cases in Hb.
  apply extract_fields_Ok in Hf as (q & _ & ->). simpl in *.
  repeat case_decide; try discriminate.
  repeat split; done.
Qed.

Lemma response_echoes_request_witness :
  ∃ r : response,
    [Response "A#20250222120000-1b4e28ba" "39971881" "US"
       (Price None "USD" 132.42 136.66 "USD" 3.2 1) (Some [[Pax Adult 30; Pax Child 5]])] = [r]
    ∧ market r
      = ET.findtext_default
          (Sample.request "25/02/2025" "28/02/2025" Sample.credentials [["30"; "5"]])
          path_nationality (DEFAULT_NATIONALITY Sample.config)
    ∧ market r ∈ VALID_NATIONALITIES Sample.config
    ∧ currency (price_of r) ∈ VALID_CURRENCIES Sample.config
    ∧ selling_currency (price_of r) = currency (price_of r)
    ∧ net (price_of r) = NET_PRICE Sample.config
    ∧ markup (price_of r) = MARKUP_PERCENTAGE Sample.config
    ∧ minimumSellingPrice (price_of r) = None
    ∧ hotelCodeSupplier r = "39971881".
Proof.
  apply (response_echoes_request Sample.config Sample.env
           (Sample.request "25/02/2025" "28/02/2025" Sample.credentials [["30"; "5"]])).
  vm_compute. reflexivity.
Defined.

(** Language, quota, dates and the marker [ocg] leave no trace in the
    response: two accepted documents with the same currency, the same
    nationality and the same rooms get, from the same clock reading and UUID,
    the same response, even when they were validated at different times. *)
Theorem response_ignores_other_fields (C : constants) (env : environment)
    (now now' : datetime) (root root' : element) (pd pd' : parsed_data) :
  parse_xml C now root = Ok pd → parse_xml C now' root' = Ok pd' →
  ET.findtext_default root path_currency (DEFAULT_CURRENCY C)
  = ET.findtext_default root' path_currency (DEFAULT_CURRENCY C) →
  ET.findtext_default root path_nationality (DEFAULT_NATIONALITY C)
  = ET.findtext_default root' path_nationality (DEFAULT_NATIONALITY C) →
  _parse_rooms C root = _parse_rooms C root' →
  generate_response C env pd = generate_response C env pd'.
Proof.
  intros H H' Hc Hn Hr.
  apply parse_xml_Ok in H as (f & rs & sd & ed & Hf & _ & Hrs & _ & _ & ->).
  apply parse_xml_Ok in H' as (f' & rs' & sd' & ed' & Hf' & _ & Hrs' & _ & _ & ->).
  apply extract_fields_Ok in Hf as (q & _ & ->).
  apply extract_fields_Ok in Hf' as (q' & _ & ->).
  rewrite Hr, Hrs' in Hrs. injection Hrs as <-.
  unfold generate_response, response_data. simpl. by rewrite Hc, Hn.
Qed.

Lemma response_ignores_other_fields_witness :
  generate_response Sample.config Sample.env
    (ParsedData "en" 20 "USD" "US" (Datetime 739307 0) (Datetime 739310 0)
       "OCG_SECRET" (Some [[Pax Adult 30; Pax Child 5]]))
  = generate_response Sample.config Sample.env
      (ParsedData "en" 20 "USD" "US" (Datetime 739310 0) (Datetime 739320 0)
         "OCG_SECRET" (Some [[Pax Adult 30; Pax Child 5]])).
Proof.
  apply (response_ignores_other_fields Sample.config Sample.env Sample.noon Sample.noon
           (Sample.request "25/02/2025" "28/02/2025" Sample.credentials [["30"; "5"]])
           (Sample.request "28/02/2025" "10/03/2025" Sample.credentials [["30"; "5"]]));
    vm_compute; reflexivity.
Defined.

(** ** The clock *)

(** The clock only enters through the lead-time check: a document accepted
    at one time is accepted, with the same record, at every earlier time. *)
Theorem accepted_at_earlier_time (C : constants) (now now' : datetime) (root : element)
    (pd : parsed_data) :
  parse_xml C now root = Ok pd →
  ordinal now' < ordinal now ∨ (ordinal now' = ordinal now ∧ usec now' ≤ usec now) →
  parse_xml C now' root = Ok pd.
Proof.
  intros H Hearlier.
  apply parse_xml_Ok in H as (f & rs & sd & ed & Hf & Hp & Hr & Hb & Hd & ->).
  apply parse_xml_Ok. exists f, rs, sd, ed. repeat split; try done.
  unfold _validate_dates in *.
  apply bind_Ok in Hd as (sd' & Hs & Hd). apply bind_Ok in Hd as (ed' & He & Hd).
  rewrite Hs, He. simpl.
  destruct (DT.lt sd' (DT.add_days now 2)) eqn:Hlt; [discriminate|].
  assert (DT.lt sd' (DT.add_days now' 2) = false) as ->; [|done].
  apply not_true_iff_false in Hlt. apply not_true_iff_false.
  rewrite lt_spec in *. simpl in *. lia.
Qed.

Lemma accepted_at_earlier_time_witness :
  parse_xml Sample.config (Datetime 739300 0)
    (Sample.request "25/02/2025" "28/02/2025" Sample.credentials [["30"; "5"]])
  = Ok (ParsedData "en" 20 "USD" "US" (Datetime 739307 0) (Datetime 739310 0)
          "OCG_SECRET" (Some [[Pax Adult 30; Pax Child 5]])).
Proof.
  apply (accepted_at_earlier_time Sample.config Sample.noon (Datetime 739300 0)).
  - vm_compute. reflexivity.
  - left. simpl. lia.
Defined.
